(** * blessed.terminal: a shallow embedding of [Terminal] and its properties

    The development follows [src/blessed/terminal.py].  Python objects become
    records, attribute look-up (with its [__getattr__] fall-back) is written
    out, exceptions and blocking calls are results of an outcome type, and
    the operating system (clock, keyboard bytes, environment, window size,
    curses) is an explicit world passed around. *)

From Stdlib Require Import ZArith String Ascii Strings.Byte List Lia Bool.
From stdpp Require Import base option list strings pretty gmap.

Local Open Scope string_scope.
Local Open Scope Z_scope.

(** ** Python-level results *)

Module Py.

(** The exceptions that the modelled code can raise. *)
Inductive exn : Type :=
| AssertionError
| TypeError
| ValueError
| IOError
| UnicodeDecodeError
| AttributeError
| IndexError
| CursesError
| UserError (tag : string).

(** A call returns or raises. *)
Inductive outcome (A : Type) : Type :=
| Ok (a : A)
| Raise (e : exn).
Arguments Ok {A} a.
Arguments Raise {A} e.

Definition bind {A B} (m : outcome A) (k : A -> outcome B) : outcome B :=
  match m with
  | Ok a => k a
  | Raise e => Raise e
  end.

(** A call that touches the process returns, raises, never comes back from
    a blocking system call, or (in the loops, which carry an iteration
    budget) runs out of budget. *)
Inductive run (A : Type) : Type :=
| Returns (a : A)
| Raises (e : exn)
| Hangs
| OutOfFuel.
Arguments Returns {A} a.
Arguments Raises {A} e.
Arguments Hangs {A}.
Arguments OutOfFuel {A}.

End Py.
Import Py.

(** Stateful code: Python mutates [self] and the process state also on the
    way to an exception, so the state comes back next to the result. *)
Definition M (S A : Type) : Type := S -> run A * S.

Definition ret {S A} (a : A) : M S A := fun s => (Returns a, s).
Definition raise {S A} (e : exn) : M S A := fun s => (Raises e, s).
Definition mbind_st {S A B} (m : M S A) (k : A -> M S B) : M S B :=
  fun s => match m s with
           | (Returns a, s') => k a s'
           | (Raises e, s') => (Raises e, s')
           | (Hangs, s') => (Hangs, s')
           | (OutOfFuel, s') => (OutOfFuel, s')
           end.
Definition get {S} : M S S := fun s => (Returns s, s).
Definition modify {S} (f : S -> S) : M S unit := fun s => (Returns tt, f s).
Definition to_run {A} (o : outcome A) : run A :=
  match o with
  | Ok a => Returns a
  | Raise e => Raises e
  end.
Definition lift {S A} (o : outcome A) : M S A := fun s => (to_run o, s).
Definition out_of_fuel {S A} : M S A := fun s => (OutOfFuel, s).

Notation "x <~ m ;; k" := (mbind_st m (fun x => k))
  (at level 100, m at next level, right associativity, only parsing).
Notation "m ;;; k" := (mbind_st m (fun _ => k))
  (at level 100, right associativity, only parsing).

(** ** Text *)

(** [s[n:]] and [s[:n]] on strings. *)
Fixpoint str_drop (n : nat) (s : string) : string :=
  match n, s with
  | O, _ => s
  | S n', String _ s' => str_drop n' s'
  | S _, EmptyString => EmptyString
  end.

Fixpoint str_take (n : nat) (s : string) : string :=
  match n, s with
  | O, _ => EmptyString
  | S n', String c s' => String c (str_take n' s')
  | S _, EmptyString => EmptyString
  end.

Definition str_of_char (c : ascii) : string := String c EmptyString.

(** [u''.join(args)] *)
Fixpoint str_join (args : list string) : string :=
  match args with
  | [] => EmptyString
  | a :: rest => a +:+ str_join rest
  end.

Definition str_is_empty (s : string) : bool :=
  match s with EmptyString => true | _ => false end.

(** Characters that [unicode.strip()] removes, among the code points below
    256: TAB..CR, FS..US, SPACE, NEL and NBSP. *)
Definition is_space (c : ascii) : bool :=
  let n := N_of_ascii c in
  ((9 <=? n) && (n <=? 13))%N || ((28 <=? n) && (n <=? 32))%N
  || (n =? 133)%N || (n =? 160)%N.

(** Line boundaries of [unicode.splitlines()], among the code points below
    256: LF, VT, FF, CR, FS, GS, RS and NEL; CR LF counts once. *)
Definition is_linebreak (c : ascii) : bool :=
  let n := N_of_ascii c in
  ((10 <=? n) && (n <=? 13))%N || ((28 <=? n) && (n <=? 30))%N || (n =? 133)%N.

(** [line.strip()] taken as a truth value: some character is not a space. *)
Fixpoint strip_nonempty (s : string) : bool :=
  match s with
  | EmptyString => false
  | String c s' => negb (is_space c) || strip_nonempty s'
  end.

(** [text.splitlines()]: [cur] is the line being read, in reverse, and
    [after_cr] says that the previous character was a CR, whose LF belongs
    to the same boundary. *)
Fixpoint splitlines_aux (s : string) (cur : list ascii) (after_cr : bool)
  : list string :=
  match s with
  | EmptyString =>
      match cur with
      | [] => []
      | _ => [string_of_list_ascii (rev cur)]
      end
  | String c s' =>
      if after_cr && (N_of_ascii c =? 10)%N then splitlines_aux s' cur false
      else if is_linebreak c then
        string_of_list_ascii (rev cur)
          :: splitlines_aux s' [] (N_of_ascii c =? 13)%N
      else splitlines_aux s' (c :: cur) false
  end.

Definition splitlines (s : string) : list string := splitlines_aux s [] false.

(** ** Values *)

(** What attribute resolution hands out: the inert
    [formatters.NullCallableString()], or a capability value with its text
    and its rendering of integer parameters. *)
Inductive FormattingValue : Type :=
| NullCallableString
| CapabilityString (text : string) (parm : list Z -> string).

Definition fv_text (v : FormattingValue) : string :=
  match v with
  | NullCallableString => EmptyString
  | CapabilityString s _ => s
  end.

(** The Python objects that the modelled attributes and keyword arguments
    hold. *)
Inductive pyobj : Type :=
| PyNone
| PyBool (b : bool)
| PyInt (z : Z)
| PyStr (s : string)
| PyFmt (v : FormattingValue)
| PyKeycodes (codes : list (Z * string))
| PyKeymap (seqs : list (string * Z)).

(** Truth value of an object, as [not], [and], [or] and [assert] take it. *)
Definition truthy (o : pyobj) : bool :=
  match o with
  | PyNone => false
  | PyBool b => b
  | PyInt z => negb (z =? 0)
  | PyStr s => negb (str_is_empty s)
  | PyFmt v => negb (str_is_empty (fv_text v))
  | PyKeycodes c => match c with [] => false | _ => true end
  | PyKeymap m => match m with [] => false | _ => true end
  end.

Definition is_None (o : pyobj) : bool :=
  match o with PyNone => true | _ => false end.

(** [a is b] for the objects compared in this module: [None] is unique, an
    integer code is the object stored under its key name, and a value built
    by a call is a fresh object. *)
Definition py_is (a b : pyobj) : bool :=
  match a, b with
  | PyNone, PyNone => true
  | PyInt x, PyInt y => x =? y
  | PyBool x, PyBool y => Bool.eqb x y
  | _, _ => false
  end.

(** Writing an object to a text stream. *)
Definition text_of (o : pyobj) : option string :=
  match o with
  | PyStr s => Some s
  | PyFmt v => Some (fv_text v)
  | _ => None
  end.

(** Calling an attribute value with integer arguments, as in
    [self.move(y, x)]: a capability renders its parameters, the null value
    answers with a null value. *)
Definition call_ints (o : pyobj) (args : list Z) : outcome pyobj :=
  match o with
  | PyFmt NullCallableString => Ok (PyFmt NullCallableString)
  | PyFmt (CapabilityString _ parm) => Ok (PyStr (parm args))
  | _ => Raise TypeError
  end.

(** Modelled from the spec: [formatters.NullCallableString.__call__] is not
    among the sources; the specification says that with styling disabled a
    formatting value is the identity on its text arguments (concatenation,
    no injected sequences), and [test_null_callable_string] that a call
    without arguments gives the empty string. *)
Definition NullCallableString_call (args : list string) : string :=
  str_join args.

(** ** The terminal object and the process around it *)

Record Stream : Type := mkStream {
  fileno : option Z;      (* [None]: no descriptor (StringIO and the like) *)
  written : string        (* everything written so far *)
}.

Record WINSZ : Type := mkWINSZ {
  ws_row : Z;
  ws_col : Z;
  ws_xpixel : option Z;
  ws_ypixel : option Z
}.

Inductive warning : Type :=
| FailedSetupterm (kind : string)
| KindMismatch (requested current : string).

Record Terminal : Type := mkTerminal {
  stream_kb : option Z;
  _is_a_tty : bool;
  _does_styling : bool;
  _init_descriptor : option Z;
  _kind : option string;
  _keyboard_buf : list ascii;          (* collections.deque, left end first *)
  _encoding : string;
  _keyboard_decoder : list byte * Z;     (* the decoder's [getstate()] *)
  stream : Stream;
  (* attributes that exist only once assigned: [_keycodes], [_keymap], the
     [KEY_...] names and what [__getattr__] caches *)
  __dict__ : gmap string pyobj
}.

Record World : Type := mkWorld {
  now : Z;                               (* time.time() *)
  stdin : list (Z * byte);               (* unread keyboard bytes, each with
                                            the time it becomes readable *)
  stdin_eof : option Z;                  (* when the keyboard is at end-of-file
                                            once these bytes are read; [None]:
                                            it stays open, as a tty does *)
  environ : gmap string string;          (* os.environ *)
  _CUR_TERM : option string;             (* the module's global *)
  warnings : list warning;               (* warnings.warn calls, in order *)
  initialised_setupterm : bool;          (* _cursesmodule.c's flag *)
  terminfo : string -> bool;             (* kinds the database knows *)
  isatty : Z -> bool;                    (* os.isatty *)
  ioctl_winsz : Z -> option (Z * Z * Z * Z);  (* TIOCGWINSZ; [None]: IOError *)
  tigetnum_colors : Z;                   (* curses.tigetnum('colors') *)
  stdin_fileno : Z;                      (* sys.__stdin__.fileno() *)
  stdout : Stream;                       (* sys.__stdout__ *)
  stdout_fileno : Z;                     (* sys.__stdout__.fileno() *)
  preferredencoding : string             (* locale.getpreferredencoding() *)
}.

Record Proc : Type := mkProc {
  self : Terminal;
  os : World
}.

Definition with_dict (d : gmap string pyobj) (t : Terminal) : Terminal :=
  mkTerminal (stream_kb t) (_is_a_tty t) (_does_styling t)
    (_init_descriptor t) (_kind t) (_keyboard_buf t) (_encoding t)
    (_keyboard_decoder t) (stream t) d.

Definition with_keyboard_buf (b : list ascii) (t : Terminal) : Terminal :=
  mkTerminal (stream_kb t) (_is_a_tty t) (_does_styling t)
    (_init_descriptor t) (_kind t) b (_encoding t)
    (_keyboard_decoder t) (stream t) (__dict__ t).

Definition with_keyboard_decoder (d : list byte * Z) (t : Terminal)
  : Terminal :=
  mkTerminal (stream_kb t) (_is_a_tty t) (_does_styling t)
    (_init_descriptor t) (_kind t) (_keyboard_buf t) (_encoding t)
    d (stream t) (__dict__ t).

Definition with_stream (s : Stream) (t : Terminal) : Terminal :=
  mkTerminal (stream_kb t) (_is_a_tty t) (_does_styling t)
    (_init_descriptor t) (_kind t) (_keyboard_buf t) (_encoding t)
    (_keyboard_decoder t) s (__dict__ t).

Definition with_clock (n : Z) (stdin' : list (Z * byte)) (w : World) : World :=
  mkWorld n stdin' (stdin_eof w) (environ w) (_CUR_TERM w) (warnings w)
    (initialised_setupterm w) (terminfo w) (isatty w) (ioctl_winsz w)
    (tigetnum_colors w) (stdin_fileno w) (stdout w) (stdout_fileno w)
    (preferredencoding w).

Definition with_curses (cur : option string) (ws : list warning)
    (initialised : bool) (w : World) : World :=
  mkWorld (now w) (stdin w) (stdin_eof w) (environ w) cur ws initialised
    (terminfo w)
    (isatty w) (ioctl_winsz w) (tigetnum_colors w) (stdin_fileno w)
    (stdout w) (stdout_fileno w) (preferredencoding w).

Definition on_self (f : Terminal -> Terminal) (p : Proc) : Proc :=
  mkProc (f (self p)) (os p).

Definition on_os (f : World -> World) (p : Proc) : Proc :=
  mkProc (self p) (f (os p)).

(** The properties [does_styling] and [is_a_tty]. *)
Definition does_styling (t : Terminal) : bool := _does_styling t.
Definition is_a_tty (t : Terminal) : bool := _is_a_tty t.

(** [keyboard.Keystroke]: a unicode string that also carries the key code
    and name of a recognised sequence. *)
Record Keystroke : Type := mkKeystroke {
  ks_text : string;
  ks_code : option Z;
  ks_name : option string
}.

Definition code_obj (ks : Keystroke) : pyobj :=
  match ks_code ks with
  | Some c => PyInt c
  | None => PyNone
  end.

(** The terminal as [__init__] left it: what was written to the stream,
    the keyboard buffer and decoder and the attributes stored since are
    blanked. *)
Definition as_constructed (t : Terminal) : Terminal :=
  mkTerminal (stream_kb t) (_is_a_tty t) (_does_styling t)
    (_init_descriptor t) (_kind t) [] (_encoding t) ([], 0)
    (mkStream (fileno (stream t)) EmptyString) ∅.

(** The functions that [terminal.py] imports from modules that are not part
    of the sources ([formatters], [sequences], [keyboard]) and from the
    codec registry.  [resolve_attribute(term, attr)] is handed the
    terminal; what is assumed of it is that its answer depends on the
    terminal as it was constructed, not on what was written, buffered or
    cached since, and that it stores nothing on the terminal that the
    methods modelled here read.  [init_sequence_patterns] gives the
    attributes that it stores on the terminal. *)
Class Imports : Type := {
  resolve_attribute : Terminal -> string -> outcome FormattingValue;
  init_sequence_patterns : Terminal -> gmap string pyobj;
  get_keyboard_codes : list (Z * string);
  get_keyboard_sequences : Terminal -> list (string * Z);
  resolve_sequence : string -> pyobj -> pyobj -> outcome Keystroke;
  SequenceTextWrapper_wrap :
    option Z -> Terminal -> gmap string pyobj -> string
    -> outcome (list string);
  decoder_decode : list byte * Z -> byte -> outcome (string * (list byte * Z))
}.

(** Python's truth-value operators give back one of their operands. *)
Definition py_and (a b : pyobj) : pyobj := if truthy a then b else a.
Definition py_or (a b : pyobj) : pyobj := if truthy a then a else b.

Definition as_int (o : pyobj) : Z :=
  match o with
  | PyInt z => z
  | PyBool b => if b then 1 else 0
  | _ => 0
  end.

(** [int(s)] on a string: surrounding blanks, an optional sign, decimal
    digits; anything else is a ValueError. *)
Definition digit_of (c : ascii) : option Z :=
  let n := N_of_ascii c in
  if ((48 <=? n) && (n <=? 57))%N then Some (Z.of_N n - 48) else None.

Fixpoint parse_digits (s : list ascii) (acc : Z) : option Z :=
  match s with
  | [] => Some acc
  | c :: s' =>
      match digit_of c with
      | Some d => parse_digits s' (10 * acc + d)
      | None => None
      end
  end.

Fixpoint lstrip (s : list ascii) : list ascii :=
  match s with
  | [] => []
  | c :: s' => if is_space c then lstrip s' else s
  end.

Definition strip (s : list ascii) : list ascii :=
  rev (lstrip (rev (lstrip s))).

Definition parse_unsigned (s : list ascii) : option Z :=
  match s with
  | [] => None
  | _ => parse_digits s 0
  end.

Definition py_int (s : string) : outcome Z :=
  let parsed :=
    match strip (list_ascii_of_string s) with
    | c :: r =>
        if (N_of_ascii c =? 45)%N then Z.opp <$> parse_unsigned r
        else if (N_of_ascii c =? 43)%N then parse_unsigned r
        else parse_unsigned (c :: r)
    | [] => None
    end in
  match parsed with
  | Some z => Ok z
  | None => Raise ValueError
  end.

(** [os.getenv(name, default)] *)
Definition getenv (w : World) (name default : string) : string :=
  match environ w !! name with
  | Some v => v
  | None => default
  end.

(** Names that [dir(self)] lists whatever the instance holds: the attributes
    of the class and those that [__init__] always assigns. *)
Definition class_dir : list string :=
  [ "_sugar"; "does_styling"; "is_a_tty"; "height"; "width"; "_winsize";
    "_height_and_width"; "location"; "fullscreen"; "hidden_cursor"; "color";
    "on_color"; "normal"; "number_of_colors"; "_foreground_color";
    "_background_color"; "ljust"; "rjust"; "center"; "length"; "wrap";
    "kbhit"; "cbreak"; "raw"; "inkey"; "__init__"; "__getattr__";
    "stream_kb"; "_is_a_tty"; "_does_styling"; "_init_descriptor"; "_kind";
    "_keyboard_buf"; "_encoding"; "_keyboard_decoder"; "stream" ].

Definition in_dir (t : Terminal) (attr : string) : bool :=
  bool_decide (attr ∈ class_dir) || bool_decide (is_Some (__dict__ t !! attr)).

(** ** The methods of [Terminal] *)

Section Methods.
Context {imports : Imports}.

Definition setattr (attr : string) (v : pyobj) : M Proc unit :=
  modify (on_self (fun t => with_dict (<[attr := v]> (__dict__ t)) t)).

(** [Terminal.__getattr__], called for a name that ordinary look-up does
    not find. *)
Definition __getattr__ (attr : string) : M Proc pyobj :=
  p <~ get;;
  if negb (does_styling (self p)) then ret (PyFmt NullCallableString)
  else
    val <~ lift (resolve_attribute (as_constructed (self p)) attr);;
    (if negb (in_dir (self p) attr) then setattr attr (PyFmt val) else ret tt);;;
    ret (PyFmt val).

(** [self.<attr>] for a name that neither the class nor [__init__] defines
    unconditionally: the instance dictionary first, then [__getattr__]. *)
Definition getattr (attr : string) : M Proc pyobj :=
  p <~ get;;
  match __dict__ (self p) !! attr with
  | Some v => ret v
  | None => __getattr__ attr
  end.

(** The value of [self.<attr>] as a function of the terminal: what
    [getattr] returns, apart from the caching. *)
Definition attr_value (t : Terminal) (attr : string) : outcome pyobj :=
  match __dict__ t !! attr with
  | Some v => Ok v
  | None =>
      if negb (does_styling t) then Ok (PyFmt NullCallableString)
      else Py.bind (resolve_attribute (as_constructed t) attr)
             (fun v => Ok (PyFmt v))
  end.

(** [number_of_colors] *)
Definition number_of_colors (p : Proc) : Z :=
  Z.max 0
    (as_int (py_or (py_and (PyBool (does_styling (self p)))
                           (PyInt (tigetnum_colors (os p))))
                   (PyInt (-1)))).

(** [_winsize(fd)]: may raise IOError. *)
Definition _winsize (w : World) (fd : Z) : outcome WINSZ :=
  match ioctl_winsz w fd with
  | Some (r, c, x, y) => Ok (mkWINSZ r c (Some x) (Some y))
  | None => Raise IOError
  end.

(** The [for fd in (...)] loop of [_height_and_width]: the first candidate
    whose query does not raise IOError decides; [None] when the loop runs
    to its end. *)
Fixpoint query_candidates (w : World) (fds : list (option Z))
  : option (outcome WINSZ) :=
  match fds with
  | [] => None
  | fd :: rest =>
      match fd with
      | Some d =>
          match _winsize w d with
          | Raise IOError => query_candidates w rest
          | r => Some r
          end
      | None => query_candidates w rest
      end
  end.

Definition _height_and_width (p : Proc) : outcome WINSZ :=
  match query_candidates (os p)
          [_init_descriptor (self p); Some (stdout_fileno (os p))] with
  | Some r => r
  | None =>
      Py.bind (py_int (getenv (os p) "LINES" "25")) (fun row =>
      Py.bind (py_int (getenv (os p) "COLUMNS" "80")) (fun col =>
      Ok (mkWINSZ row col None None)))
  end.

Definition height (p : Proc) : outcome Z :=
  Py.bind (_height_and_width p) (fun w => Ok (ws_row w)).

Definition width (p : Proc) : outcome Z :=
  Py.bind (_height_and_width p) (fun w => Ok (ws_col w)).

(** [curses.setupterm(kind, fd)]: the C module initialises once per process
    and lets every later call through unchanged; [None] is curses.error. *)
Definition setupterm (kind : string) (w : World) : option World :=
  if initialised_setupterm w then Some w
  else if terminfo w kind
       then Some (with_curses (_CUR_TERM w) (warnings w) true w)
       else None.

Definition warn (m : warning) (w : World) : World :=
  with_curses (_CUR_TERM w) (warnings w ++ [m]) (initialised_setupterm w) w.

(** The part of [__init__] under the first [if self.does_styling]: the
    result is the terminal's kind, whether it still styles, and the
    process state. *)
Definition init_curses (kind : string) (w : World)
  : option string * bool * World :=
  match setupterm kind w with
  | None => (None, false, warn (FailedSetupterm kind) w)
  | Some w' =>
      match _CUR_TERM w' with
      | None =>
          (Some kind, true,
           with_curses (Some kind) (warnings w') (initialised_setupterm w') w')
      | Some cur =>
          if String.eqb kind cur
          then (Some kind, true,
                with_curses (Some kind) (warnings w')
                  (initialised_setupterm w') w')
          else (Some kind, true, warn (KindMismatch kind cur) w')
      end
  end.

(** [Terminal.__init__(kind, stream, force_styling)]; [force_styling] is
    [None], or an object of which only the truth value matters.  The
    imported functions that receive [self] half-way see the attributes
    assigned so far, the others at their empty values. *)
Definition __init__ (kind : option string) (stream_arg : option Stream)
    (force_styling : option bool) (w : World) : Terminal * World :=
  let '(stream0, kb) :=
    match stream_arg with
    | None => (stdout w, Some (stdin_fileno w))
    | Some s => (s, None)
    end in
  let stream_fd := fileno stream0 in
  let tty :=
    match stream_fd with
    | Some fd => isatty w fd
    | None => false
    end in
  let styling0 :=
    (tty || default false force_styling)
    && match force_styling with Some _ => true | None => false end in
  let init_descriptor :=
    match stream_fd with
    | None => if stdout_fileno w =? 0 then None else Some (stdout_fileno w)
    | Some fd => Some fd
    end in
  let kind0 :=
    match kind with
    | Some k => if str_is_empty k then getenv w "TERM" "unknown" else k
    | None => getenv w "TERM" "unknown"
    end in
  let '(kind1, styling1, w1) :=
    if styling0 then init_curses kind0 w else (Some kind0, false, w) in
  let t0 :=
    mkTerminal kb tty styling1 init_descriptor kind1 [] EmptyString ([], 0)
      stream0 ∅ in
  let t1 :=
    if styling1 then
      let ta := with_dict (init_sequence_patterns t0 ∪ __dict__ t0) t0 in
      let codes := get_keyboard_codes in
      let d1 := <["_keycodes" := PyKeycodes codes]> (__dict__ ta) in
      let d2 :=
        fold_left (fun d '(key_code, key_name) => <[key_name := PyInt key_code]> d)
          codes d1 in
      let tb := with_dict d2 ta in
      with_dict (<["_keymap" := PyKeymap (get_keyboard_sequences tb)]> d2) tb
    else t0 in
  (mkTerminal (stream_kb t1) (_is_a_tty t1) (_does_styling t1)
     (_init_descriptor t1) (_kind t1) [] (preferredencoding w1) ([], 0)
     stream0 (__dict__ t1),
   w1).

(** [wrap(text, width, **kwargs)]: the body of the [for] loop, which
    extends [lines] for each line of [text.splitlines()]. *)
Fixpoint wrap_loop (t : Terminal) (width' : option Z)
    (kwargs : gmap string pyobj) (text : string) (todo : list string)
    (lines : list string) : outcome (list string) :=
  match todo with
  | [] => Ok lines
  | line :: rest =>
      if strip_nonempty line then
        Py.bind (SequenceTextWrapper_wrap width' t kwargs text) (fun wrapped =>
        wrap_loop t width' kwargs text rest (lines ++ wrapped))
      else wrap_loop t width' kwargs text rest (lines ++ [EmptyString])
  end.

(** [width = width is None and self.width or width] *)
Definition wrap_width (width_arg : option Z) (p : Proc)
  : outcome (option Z) :=
  match width_arg with
  | None => Py.bind (width p) (fun w => Ok (if w =? 0 then None else Some w))
  | Some w => Ok (Some w)
  end.

Definition wrap (text : string) (width_arg : option Z)
    (kwargs : gmap string pyobj) (p : Proc) : outcome (list string) :=
  let _blw := "break_long_words" in
  if negb (match kwargs !! _blw with
           | None => true
           | Some v => negb (truthy v)
           end)
  then Raise AssertionError
  else
    Py.bind (wrap_width width_arg p) (fun width' =>
    wrap_loop (self p) width' kwargs text (splitlines text) []).

(** *** The keyboard *)

(** The time at which the keyboard descriptor becomes readable: when the
    next byte arrives or, after the last byte, when end-of-file is reached;
    [None] when nothing is to come on a keyboard that stays open. *)
Definition next_readable (w : World) : option Z :=
  match stdin w with
  | (a, _) :: _ => Some a
  | [] => stdin_eof w
  end.

(** [select.select([fd], [], [], timeout)]: the list of readable
    descriptors.  A descriptor that is [None] is a TypeError and a negative
    timeout a ValueError; without a timeout the call waits until the
    descriptor is readable, for ever if it never is.  A descriptor at
    end-of-file is readable. *)
Definition select_select (fd : option Z) (timeout : option Z)
  : M Proc (list (option Z)) :=
  fun p =>
    let w := os p in
    match fd with
    | None => (Raises TypeError, p)
    | Some _ =>
        match timeout with
        | None =>
            match next_readable w with
            | None => (Hangs, p)
            | Some a =>
                (Returns [fd], on_os (with_clock (Z.max (now w) a) (stdin w)) p)
            end
        | Some t =>
            if t <? 0 then (Raises ValueError, p)
            else
              match next_readable w with
              | None => (Returns [], on_os (with_clock (now w + t) (stdin w)) p)
              | Some a =>
                  if a <=? now w + t
                  then (Returns [fd],
                        on_os (with_clock (Z.max (now w) a) (stdin w)) p)
                  else (Returns [], on_os (with_clock (now w + t) (stdin w)) p)
              end
        end
    end.

(** [os.read(fd, 1)]: waits for the next byte and returns it; at
    end-of-file it returns the empty string, here [None]. *)
Definition os_read (fd : option Z) : M Proc (option byte) :=
  fun p =>
    let w := os p in
    match fd with
    | None => (Raises TypeError, p)
    | Some _ =>
        match stdin w with
        | [] =>
            match stdin_eof w with
            | None => (Hangs, p)
            | Some a =>
                (Returns None, on_os (with_clock (Z.max (now w) a) []) p)
            end
        | (a, b) :: rest =>
            (Returns (Some b), on_os (with_clock (Z.max (now w) a) rest) p)
        end
    end.

Definition time_time : M Proc Z := fun p => (Returns (now (os p)), p).

(** [kbhit(timeout)] *)
Definition kbhit (timeout : option Z) : M Proc bool :=
  keyboard_fd <~ getattr "keyboard_fd";;
  if is_None keyboard_fd then ret false
  else
    p <~ get;;
    let check_r := [stream_kb (self p)] in
    ready_r <~ select_select (stream_kb (self p)) timeout;;
    ret (bool_decide (check_r = ready_r)).

(** The deque operations that [inkey] uses. *)
Definition deque_pop : M Proc ascii :=
  fun p =>
    match rev (_keyboard_buf (self p)) with
    | [] => (Raises IndexError, p)
    | c :: r => (Returns c, on_self (with_keyboard_buf (rev r)) p)
    end.

Definition deque_extendleft (s : string) (d : list ascii) : list ascii :=
  fold_left (fun d c => c :: d) (list_ascii_of_string s) d.

(** [_timeleft(stime, timeout)] *)
Definition _timeleft (stime : Z) (timeout : option Z) : M Proc (option Z) :=
  match timeout with
  | Some t =>
      if t =? 0 then ret (Some 0)
      else n <~ time_time;; ret (Some (Z.max 0 (t - (n - stime))))
  | None => ret None
  end.

(** [self._keyboard_decoder.decode(byte, final=False)]: an incremental
    decoder that is given the empty string has nothing to add to its input;
    it gives no text and stays as it is. *)
Definition decode (st : list byte * Z) (input : option byte)
  : outcome (string * (list byte * Z)) :=
  match input with
  | Some b => decoder_decode st b
  | None => Ok (EmptyString, st)
  end.

(** [_decode_next()] *)
Definition _decode_next : M Proc string :=
  p <~ get;;
  b <~ os_read (stream_kb (self p));;
  p' <~ get;;
  r <~ lift (decode (_keyboard_decoder (self p')) b);;
  modify (on_self (with_keyboard_decoder (snd r)));;;
  ret (fst r).

(** [while self._keyboard_buf: ucs += self._keyboard_buf.pop()] *)
Fixpoint rebuffer (fuel : nat) (ucs : string) : M Proc string :=
  p <~ get;;
  match _keyboard_buf (self p) with
  | [] => ret ucs
  | _ :: _ =>
      match fuel with
      | O => out_of_fuel
      | S fuel' =>
          c <~ deque_pop;;
          rebuffer fuel' (ucs +:+ str_of_char c)
      end
  end.

(** [while self.kbhit(): ucs += _decode_next()] *)
Fixpoint recv_available (fuel : nat) (ucs : string) : M Proc string :=
  ready <~ kbhit (Some 0);;
  if ready then
    match fuel with
    | O => out_of_fuel
    | S fuel' =>
        s <~ _decode_next;;
        recv_available fuel' (ucs +:+ s)
    end
  else ret ucs.

(** [while not ks and self.kbhit(_timeleft(stime, timeout)): ...] *)
Fixpoint recv_blocking (fuel : nat) (resolve : string -> M Proc Keystroke)
    (stime : Z) (timeout : option Z) (ucs : string) (ks : Keystroke)
  : M Proc (string * Keystroke) :=
  if str_is_empty (ks_text ks) then
    left <~ _timeleft stime timeout;;
    ready <~ kbhit left;;
    if ready then
      match fuel with
      | O => out_of_fuel
      | S fuel' =>
          s <~ _decode_next;;
          ks' <~ resolve (ucs +:+ s);;
          recv_blocking fuel' resolve stime timeout (ucs +:+ s) ks'
      end
    else ret (ucs, ks)
  else ret (ucs, ks).

(** [while (ks.code is self.KEY_ESCAPE and
            self.kbhit(_timeleft(esctime, esc_delay))): ...] *)
Fixpoint recv_escape (fuel : nat) (resolve : string -> M Proc Keystroke)
    (esctime : Z) (esc_delay : option Z) (ucs : string) (ks : Keystroke)
  : M Proc (string * Keystroke) :=
  esc <~ getattr "KEY_ESCAPE";;
  if py_is (code_obj ks) esc then
    left <~ _timeleft esctime esc_delay;;
    ready <~ kbhit left;;
    if ready then
      match fuel with
      | O => out_of_fuel
      | S fuel' =>
          s <~ _decode_next;;
          ks' <~ resolve (ucs +:+ s);;
          recv_escape fuel' resolve esctime esc_delay (ucs +:+ s) ks'
      end
    else ret (ucs, ks)
  else ret (ucs, ks).

(** The budget of the three receiving loops: one iteration for each
    pending byte.  An iteration reads a byte, unless the keyboard is at
    end-of-file: there it reads nothing, the poll that follows finds the
    keyboard readable again, and the loop goes round for ever.  That is the
    one way in which these loops run out of budget. *)
Definition pending_bytes : M Proc nat :=
  fun p => (Returns (length (stdin (os p))), p).

(** [inkey], up to the point where a keystroke has been resolved from the
    buffered and the newly received text: the result is the [resolve]
    closure, the text [ucs] and the keystroke [ks]. *)
Definition inkey_receive (timeout : option Z)
  : M Proc ((string -> M Proc Keystroke) * string * Keystroke) :=
  mapper <~ getattr "_keymap";;
  codes <~ getattr "_keycodes";;
  let resolve := fun text => lift (resolve_sequence text mapper codes) in
  stime <~ time_time;;
  p <~ get;;
  ucs <~ rebuffer (length (_keyboard_buf (self p))) EmptyString;;
  n <~ pending_bytes;;
  ucs <~ recv_available n ucs;;
  ks <~ resolve ucs;;
  n <~ pending_bytes;;
  r <~ recv_blocking n resolve stime timeout ucs ks;;
  ret (resolve, fst r, snd r).

(** The [if ks.code is self.KEY_ESCAPE:] block. *)
Definition inkey_escape (resolve : string -> M Proc Keystroke)
    (esc_delay : option Z) (ucs : string) (ks : Keystroke)
  : M Proc (string * Keystroke) :=
  esc <~ getattr "KEY_ESCAPE";;
  if py_is (code_obj ks) esc then
    esctime <~ time_time;;
    n <~ pending_bytes;;
    recv_escape n resolve esctime esc_delay ucs ks
  else ret (ucs, ks).

(** [inkey] before its last two lines: the text read and the keystroke. *)
Definition inkey_resolved (timeout esc_delay : option Z)
  : M Proc (string * Keystroke) :=
  r <~ inkey_receive timeout;;
  let '(resolve, ucs, ks) := r in
  inkey_escape resolve esc_delay ucs ks.

(** [inkey(timeout, esc_delay)] *)
Definition inkey (timeout esc_delay : option Z) : M Proc Keystroke :=
  r <~ inkey_resolved timeout esc_delay;;
  let '(ucs, ks) := r in
  modify (on_self (fun t =>
    with_keyboard_buf
      (deque_extendleft (str_drop (String.length (ks_text ks)) ucs)
         (_keyboard_buf t)) t));;;
  ret ks.

(** *** [location] *)

Definition stream_write (o : pyobj) : M Proc unit :=
  match text_of o with
  | Some s =>
      modify (on_self (fun t =>
        with_stream (mkStream (fileno (stream t)) (written (stream t) +:+ s)) t))
  | None => raise TypeError
  end.

(** [try: body finally: handler] *)
Definition try_finally {A} (body : M Proc A) (handler : M Proc unit)
  : M Proc A :=
  fun p =>
    match body p with
    | (Hangs, p') => (Hangs, p')
    | (OutOfFuel, p') => (OutOfFuel, p')
    | (r, p') =>
        match handler p' with
        | (Returns _, p'') => (r, p'')
        | (Raises e, p'') => (Raises e, p'')
        | (Hangs, p'') => (Hangs, p'')
        | (OutOfFuel, p'') => (OutOfFuel, p'')
        end
    end.

(** What [location] does before the [yield]. *)
Definition location_enter (x y : option Z) : M Proc unit :=
  save <~ getattr "save";;
  stream_write save;;;
  match x, y with
  | Some x', Some y' =>
      move <~ getattr "move";;
      s <~ lift (call_ints move [y'; x']);;
      stream_write s
  | Some x', None =>
      move_x <~ getattr "move_x";;
      s <~ lift (call_ints move_x [x']);;
      stream_write s
  | None, Some y' =>
      move_y <~ getattr "move_y";;
      s <~ lift (call_ints move_y [y']);;
      stream_write s
  | None, None => ret tt
  end.

Definition location_exit : M Proc unit :=
  restore <~ getattr "restore";;
  stream_write restore.

(** [with self.location(x, y): body] *)
Definition location (x y : option Z) (body : M Proc unit) : M Proc unit :=
  location_enter x y;;;
  try_finally body location_exit.

(** The text that [location] writes between the save and the restore
    sequences, in the words of its documentation: the move to the column
    and row, to the column, to the row, or nothing, according to which of
    [x] and [y] are given. *)
Definition as_text (o : pyobj) : outcome string :=
  match text_of o with
  | Some s => Ok s
  | None => Raise TypeError
  end.

Definition location_movement (t : Terminal) (x y : option Z)
  : outcome string :=
  match x, y with
  | Some x', Some y' =>
      Py.bind (attr_value t "move") (fun m =>
      Py.bind (call_ints m [y'; x']) as_text)
  | Some x', None =>
      Py.bind (attr_value t "move_x") (fun m =>
      Py.bind (call_ints m [x']) as_text)
  | None, Some y' =>
      Py.bind (attr_value t "move_y") (fun m =>
      Py.bind (call_ints m [y']) as_text)
  | None, None => Ok EmptyString
  end.

(** The text that the incremental decoder gives for a run of bytes fed one
    at a time, and the state it ends in. *)
Fixpoint decode_all (st : list byte * Z) (bs : list byte)
  : outcome (string * (list byte * Z)) :=
  match bs with
  | [] => Ok (EmptyString, st)
  | b :: bs' =>
      Py.bind (decoder_decode st b) (fun r =>
      Py.bind (decode_all (snd r) bs') (fun r' =>
      Ok (fst r +:+ fst r', snd r')))
  end.

(** *** Relations between two states of the process *)

(** A step that at most adds a binding to the instance dictionary, without
    changing the value of any attribute. *)
Definition caches (p p' : Proc) : Prop :=
  exists d, p' = on_self (with_dict d) p /\
            forall b, attr_value (with_dict d (self p)) b
                      = attr_value (self p) b.

(** Nothing is due within [t] time units: no byte, and no end-of-file. *)
Definition quiet_for (t : Z) (w : World) : Prop :=
  match next_readable w with
  | None => True
  | Some a => now w + t < a
  end.

(** The keyboard is at end-of-file: every byte was read and the
    descriptor reports it. *)
Definition at_eof (w : World) : Prop :=
  stdin w = [] /\ exists a, stdin_eof w = Some a /\ a <= now w.

(** From [p] to [p'] the first [n] pending bytes were read and decoded to
    [fresh]; the buffer of left-over characters was not touched. *)
Definition consumed (p p' : Proc) (fresh : string) : Prop :=
  exists n,
    stdin (os p') = drop n (stdin (os p)) /\
    decode_all (_keyboard_decoder (self p)) (map snd (take n (stdin (os p))))
    = Ok (fresh, _keyboard_decoder (self p')) /\
    _keyboard_buf (self p') = _keyboard_buf (self p).

(** A [resolve] closure looks at its text only. *)
Definition stateless {A} (f : string -> M Proc A) : Prop :=
  forall text p r p', f text p = (r, p') -> p' = p.


End Methods.

(** ** A small concrete process

    One instance of the imported functions and of the world, used to run
    the methods on concrete inputs. *)

Module Sample.

Definition ESC : string := String "027"%char EmptyString.

Definition show (z : Z) : string := pretty z.

(** A few xterm capabilities; every other name resolves to an empty
    capability. *)
Definition sample_resolve_attribute (attr : string)
  : outcome FormattingValue :=
  if String.eqb attr "save" then
    Ok (CapabilityString (ESC +:+ "7") (fun _ => ESC +:+ "7"))
  else if String.eqb attr "restore" then
    Ok (CapabilityString (ESC +:+ "8") (fun _ => ESC +:+ "8"))
  else if String.eqb attr "move" then
    Ok (CapabilityString (ESC +:+ "[%i%p1%d;%p2%dH")
          (fun args =>
             match args with
             | [y; x] => ESC +:+ "[" +:+ show (y + 1) +:+ ";" +:+ show (x + 1) +:+ "H"
             | _ => EmptyString
             end))
  else if String.eqb attr "move_x" then
    Ok (CapabilityString (ESC +:+ "[%i%p1%dG")
          (fun args =>
             match args with
             | [x] => ESC +:+ "[" +:+ show (x + 1) +:+ "G"
             | _ => EmptyString
             end))
  else if String.eqb attr "move_y" then
    Ok (CapabilityString (ESC +:+ "[%i%p1%dd")
          (fun args =>
             match args with
             | [y] => ESC +:+ "[" +:+ show (y + 1) +:+ "d"
             | _ => EmptyString
             end))
  else Ok (CapabilityString EmptyString (fun _ => EmptyString)).

(** The first sequence of the map that starts the text, else its first
    character, else the empty keystroke. *)
Fixpoint first_match (text : string) (seqs : list (string * Z))
    (codes : list (Z * string)) : option Keystroke :=
  match seqs with
  | [] => None
  | (sq, code) :: rest =>
      if String.prefix sq text
      then Some (mkKeystroke sq (Some code)
                   (snd <$> find (fun kn => fst kn =? code) codes))
      else first_match text rest codes
  end.

Definition sample_resolve_sequence (text : string) (mapper codes : pyobj)
  : outcome Keystroke :=
  match mapper, codes with
  | PyKeymap seqs, PyKeycodes cs =>
      match first_match text seqs cs with
      | Some ks => Ok ks
      | None => Ok (mkKeystroke (str_take 1 text) None None)
      end
  | _, _ => Raise AttributeError
  end.

(** Greedy filling of lines with blank-separated words. *)
Fixpoint words_aux (s : string) (cur : list ascii) : list string :=
  match s with
  | EmptyString =>
      match cur with
      | [] => []
      | _ => [string_of_list_ascii (rev cur)]
      end
  | String c s' =>
      if is_space c then
        match cur with
        | [] => words_aux s' []
        | _ => string_of_list_ascii (rev cur) :: words_aux s' []
        end
      else words_aux s' (c :: cur)
  end.

Fixpoint fill (ws : list string) (cur : string) (width : nat) : list string :=
  match ws with
  | [] => if str_is_empty cur then [] else [cur]
  | w :: rest =>
      if str_is_empty cur then fill rest w width
      else if (String.length cur + 1 + String.length w <=? width)%nat
           then fill rest (cur +:+ " " +:+ w) width
           else cur :: fill rest w width
  end.

Definition sample_wrap (width : option Z) (t : Terminal)
    (kwargs : gmap string pyobj) (text : string) : outcome (list string) :=
  match width with
  | Some w => Ok (fill (words_aux text []) EmptyString (Z.to_nat w))
  | None => Raise TypeError
  end.

(** A one-byte-per-character codec (latin-1). *)
Definition sample_decode (st : list byte * Z) (b : byte)
  : outcome (string * (list byte * Z)) :=
  Ok (str_of_char (ascii_of_byte b), st).

Definition sample_codes : list (Z * string) :=
  [ (361, "KEY_ESCAPE"); (259, "KEY_UP") ].

Definition sample_sequences : list (string * Z) :=
  [ (ESC +:+ "[A", 259); (ESC, 361) ].

#[local] Instance sample_imports : Imports := {|
  resolve_attribute := fun _ => sample_resolve_attribute;
  init_sequence_patterns := fun _ => ∅;
  get_keyboard_codes := sample_codes;
  get_keyboard_sequences := fun _ => sample_sequences;
  resolve_sequence := sample_resolve_sequence;
  SequenceTextWrapper_wrap := sample_wrap;
  decoder_decode := sample_decode
|}.

Definition tty_stdout : Stream := mkStream (Some 1) EmptyString.
Definition string_io : Stream := mkStream None EmptyString.

(** A process on a terminal: descriptors 0 and 1 are ttys of 24 rows and
    80 columns, the database knows xterm and vt100, and [stdin'] holds the
    keys to come. *)
Definition sample_world (stdin' : list (Z * byte))
    (env : gmap string string) : World :=
  mkWorld 0 stdin' None env None [] false
    (fun k => String.eqb k "xterm" || String.eqb k "vt100")
    (fun fd => (fd =? 0) || (fd =? 1))
    (fun fd => if (fd =? 0) || (fd =? 1) then Some (24, 80, 0, 0) else None)
    8 0 tty_stdout 1 "ISO-8859-1".

(** The same process with its output going to a file: no descriptor is a
    tty and no window size can be queried. *)
Definition piped_world (env : gmap string string) : World :=
  mkWorld 0 [] None env None [] false
    (fun k => String.eqb k "xterm" || String.eqb k "vt100")
    (fun _ => false)
    (fun _ => None)
    8 0 tty_stdout 1 "ISO-8859-1".

Definition construct (kind : option string) (stream_arg : option Stream)
    (force_styling : option bool) (w : World) : Proc :=
  let '(t, w') := __init__ kind stream_arg force_styling w in mkProc t w'.

(** A styling terminal on the process's own tty, with [stdin'] to come. *)
Definition styled_proc (stdin' : list (Z * byte)) : Proc :=
  construct (Some "xterm") None (Some true) (sample_world stdin' ∅).

(** A terminal that writes to a string buffer: no keyboard, no styling. *)
Definition plain_proc : Proc :=
  construct None (Some string_io) None (sample_world [] ∅).

(** A styling terminal that writes to a string buffer. *)
Definition forced_proc : Proc :=
  construct (Some "xterm") (Some string_io) (Some true) (sample_world [] ∅).

(** A terminal of a process without any tty, with the given environment. *)
Definition piped_proc (env : gmap string string) : Proc :=
  construct None (Some string_io) None (piped_world env).

Definition LF : string := String "010"%char EmptyString.

(** A block that writes two characters and then fails. *)
Definition failing_body : M Proc unit :=
  stream_write (PyStr "hi");;; raise (UserError "boom").



End Sample.

(** ** The other context managers *)

Section Scopes.
Context {imports : Imports}.

(** [self.stream.write(self.<name>)] *)
Definition write_attr (name : string) : M Proc unit :=
  v <~ getattr name;; stream_write v.

(** [with self.fullscreen(): body] *)
Definition fullscreen (body : M Proc unit) : M Proc unit :=
  write_attr "enter_fullscreen";;;
  try_finally body (write_attr "exit_fullscreen").

(** [with self.hidden_cursor(): body] *)
Definition hidden_cursor (body : M Proc unit) : M Proc unit :=
  write_attr "hide_cursor";;;
  try_finally body (write_attr "normal_cursor").

(** The capabilities that [location], [fullscreen] and [hidden_cursor]
    write. *)
Definition scope_names : list string :=
  ["save"; "restore"; "move"; "move_x"; "move_y";
   "enter_fullscreen"; "exit_fullscreen"; "hide_cursor"; "normal_cursor"].

(** A terminal that does not style and has none of these names stored on
    the instance. *)
Definition unstyled (t : Terminal) : Prop :=
  does_styling t = false /\
  Forall (fun name => __dict__ t !! name = None) scope_names.

(** A run of constructions in one process, each with its [kind], [stream]
    and [force_styling]: the process state that they leave. *)
Definition construct_all
    (calls : list (option string * option Stream * option bool))
    (w : World) : World :=
  fold_left (fun w' '(kind, stream_arg, force_styling) =>
               snd (__init__ kind stream_arg force_styling w'))
    calls w.

End Scopes.

(** *** Terminal modes: [cbreak] and [raw]

    The mode of a tty is whatever [termios.tcgetattr] returns for it;
    [tty.setcbreak] and [tty.setraw] change it by a function of their own.
    A descriptor that is not a tty has no mode, and asking for it is a
    [termios.error]. *)

Section Modes.
Variable TtyMode : Type.
Variable cbreak_of : TtyMode -> TtyMode.
Variable raw_of : TtyMode -> TtyMode.

Record Console : Type := mkConsole {
  proc : Proc;
  modes : gmap Z TtyMode
}.

Definition termios_error : exn := UserError "termios.error".

(** The bytes that have reached the keyboard and were not read are
    dropped; those still to come are not. *)
Definition discard_input (p : Proc) : Proc :=
  on_os (fun w =>
    with_clock (now w) (filter (fun ab => now w < fst ab) (stdin w)) w) p.

Definition tcgetattr (fd : Z) : M Console TtyMode :=
  fun c =>
    match modes c !! fd with
    | Some m => (Returns m, c)
    | None => (Raises termios_error, c)
    end.

(** [termios.tcsetattr(fd, when, mode)]; with [TCSAFLUSH] the input that
    was received and not read is discarded. *)
Definition tcsetattr (fd : Z) (flush : bool) (m : TtyMode) : M Console unit :=
  fun c =>
    match modes c !! fd with
    | Some _ =>
        let p := proc c in
        (Returns tt,
         mkConsole (if flush then discard_input p else p)
           (<[fd := m]> (modes c)))
    | None => (Raises termios_error, c)
    end.

(** [tty.setcbreak(fd, termios.TCSANOW)] and [tty.setraw(fd, ...)] *)
Definition tty_setcbreak (fd : Z) : M Console unit :=
  m <~ tcgetattr fd;; tcsetattr fd false (cbreak_of m).

Definition tty_setraw (fd : Z) : M Console unit :=
  m <~ tcgetattr fd;; tcsetattr fd false (raw_of m).

(** [try: body finally: handler], for any state. *)
Definition finally_ {S A} (body : M S A) (handler : M S unit) : M S A :=
  fun s =>
    match body s with
    | (Hangs, s') => (Hangs, s')
    | (OutOfFuel, s') => (OutOfFuel, s')
    | (r, s') =>
        match handler s' with
        | (Returns _, s'') => (r, s'')
        | (Raises e, s'') => (Raises e, s'')
        | (Hangs, s'') => (Hangs, s'')
        | (OutOfFuel, s'') => (OutOfFuel, s'')
        end
    end.

(** [termios.tcsetattr(self.stream_kb, termios.TCSAFLUSH, save_mode)], as
    the [finally] clauses call it: [self.stream_kb] is read again. *)
Definition restore_mode (save_mode : TtyMode) : M Console unit :=
  c <~ get;;
  match stream_kb (self (proc c)) with
  | Some fd => tcsetattr fd true save_mode
  | None => raise TypeError
  end.

(** [with self.cbreak(): body] *)
Definition cbreak (body : M Console unit) : M Console unit :=
  c <~ get;;
  if negb (is_a_tty (self (proc c))) then raise AssertionError
  else
    match stream_kb (self (proc c)) with
    | Some fd =>
        save_mode <~ tcgetattr fd;;
        tty_setcbreak fd;;;
        finally_ body (restore_mode save_mode)
    | None => body
    end.

(** [with self.raw(): body] *)
Definition raw (body : M Console unit) : M Console unit :=
  c <~ get;;
  if negb (is_a_tty (self (proc c))) then raise AssertionError
  else
    match stream_kb (self (proc c)) with
    | Some fd =>
        save_mode <~ tcgetattr fd;;
        tty_setraw fd;;;
        finally_ body (restore_mode save_mode)
    | None => body
    end.

(** A call on the terminal, made inside such a block. *)
Definition in_proc {A} (m : M Proc A) : M Console A :=
  fun c =>
    let '(r, p') := m (proc c) in (r, mkConsole p' (modes c)).

End Modes.

Arguments mkConsole {TtyMode}.
Arguments proc {TtyMode}.
Arguments modes {TtyMode}.
Arguments tcgetattr {TtyMode}.
Arguments tcsetattr {TtyMode}.
Arguments tty_setcbreak {TtyMode}.
Arguments tty_setraw {TtyMode}.
Arguments restore_mode {TtyMode}.
Arguments cbreak {TtyMode}.
Arguments raw {TtyMode}.
Arguments in_proc {TtyMode A}.

(** ** Notions that the properties speak of *)

Section Notions.
Context {imports : Imports}.

(** The kind that a construction asks for: [kind or os.environ.get('TERM',
    'unknown')]. *)
Definition requested_kind (kind : option string) (w : World) : string :=
  match kind with
  | Some k => if str_is_empty k then getenv w "TERM" "unknown" else k
  | None => getenv w "TERM" "unknown"
  end.

(** Whether the output stream of a construction has a descriptor that is
    a tty. *)
Definition stream_is_tty (stream_arg : option Stream) (w : World) : bool :=
  match fileno (default (stdout w) stream_arg) with
  | Some fd => isatty w fd
  | None => false
  end.

(** The condition under which [__init__] goes to curses at all:
    [(is_a_tty or force_styling) and force_styling is not None]. *)
Definition styling_requested (stream_arg : option Stream)
    (force_styling : option bool) (w : World) : bool :=
  (stream_is_tty stream_arg w || default false force_styling)
  && bool_decide (is_Some force_styling).

(** The instance dictionary that [__init__] builds on a styling terminal
    [t0]: the sequence patterns, [_keycodes], one attribute for each key
    name, and [_keymap]. *)
Definition key_attributes (t0 : Terminal) : gmap string pyobj :=
  let ta := with_dict (init_sequence_patterns t0 ∪ __dict__ t0) t0 in
  let d2 :=
    fold_left (fun d '(key_code, key_name) => <[key_name := PyInt key_code]> d)
      get_keyboard_codes
      (<["_keycodes" := PyKeycodes get_keyboard_codes]> (__dict__ ta)) in
  <["_keymap" := PyKeymap (get_keyboard_sequences (with_dict d2 ta))]> d2.

(** The keyword arguments that pass the assertion of [wrap]. *)
Definition no_break_long_words (kwargs : gmap string pyobj) : Prop :=
  match kwargs !! "break_long_words" with
  | Some v => truthy v = false
  | None => True
  end.

(** Whether the keyboard is readable [t] time units from now: a byte has
    arrived by then, or end-of-file was reached. *)
Definition readable_within (t : Z) (w : World) : bool :=
  match next_readable w with
  | Some a => a <=? now w + t
  | None => false
  end.


(** The keyboard of the terminal can be asked: [keyboard_fd] reads as
    something other than [None] and there is a descriptor. *)
Definition keyboard_usable (t : Terminal) : Prop :=
  (exists v, attr_value t "keyboard_fd" = Ok v /\ is_None v = false) /\
  exists fd, stream_kb t = Some fd.

End Notions.

(** ** More of the concrete process *)

Module MoreSamples.

(** The screen capabilities of xterm, on top of the sample ones. *)
Definition screen_resolve_attribute (attr : string)
  : outcome FormattingValue :=
  let fixed := fun s => Ok (CapabilityString s (fun _ => s)) in
  if String.eqb attr "enter_fullscreen" then fixed (Sample.ESC +:+ "[?1049h")
  else if String.eqb attr "exit_fullscreen" then
    fixed (Sample.ESC +:+ "[?1049l")
  else if String.eqb attr "hide_cursor" then fixed (Sample.ESC +:+ "[?25l")
  else if String.eqb attr "normal_cursor" then fixed (Sample.ESC +:+ "[?25h")
  else Sample.sample_resolve_attribute attr.

#[local] Instance screen_imports : Imports := {|
  resolve_attribute := fun _ => screen_resolve_attribute;
  init_sequence_patterns := fun _ => ∅;
  get_keyboard_codes := Sample.sample_codes;
  get_keyboard_sequences := fun _ => Sample.sample_sequences;
  resolve_sequence := Sample.sample_resolve_sequence;
  SequenceTextWrapper_wrap := Sample.sample_wrap;
  decoder_decode := Sample.sample_decode
|}.

(** A styling terminal with these capabilities that writes to a string
    buffer. *)
Definition screen_proc : Proc :=
  let '(t, w') := __init__ (imports := screen_imports) (Some "xterm")
                    (Some Sample.string_io) (Some true)
                    (Sample.sample_world [] ∅) in
  mkProc t w'.

(** A terminal whose window reports no columns. *)
Definition zero_width_proc : Proc :=
  mkProc (self Sample.plain_proc)
    (mkWorld 0 [] None ∅ None [] false (fun _ => false) (fun _ => false)
       (fun _ => Some (24, 0, 0, 0)) 8 0 Sample.tty_stdout 1 "ISO-8859-1").

(** A styling terminal with two characters left over from an earlier
    call, [a] first. *)
Definition buffered_proc : Proc :=
  on_self (with_keyboard_buf ["b"%char; "a"%char]) (Sample.styled_proc []).

(** The same terminal with its keyboard redirected from an empty file:
    at end-of-file from the start. *)
Definition eof_proc : Proc :=
  on_os (fun w =>
    mkWorld (now w) [] (Some 0) (environ w) (_CUR_TERM w) (warnings w)
      (initialised_setupterm w) (terminfo w) (isatty w) (ioctl_winsz w)
      (tigetnum_colors w) (stdin_fileno w) (stdout w) (stdout_fileno w)
      (preferredencoding w))
    (Sample.styled_proc []).

(** The part of a tty mode that [cbreak] and [raw] change. *)
Record LineMode : Type := mkLineMode {
  icanon : bool;
  echo : bool;
  isig : bool
}.

Definition cooked : LineMode := mkLineMode true true true.

Definition sample_cbreak (m : LineMode) : LineMode :=
  mkLineMode false false (isig m).

Definition sample_raw (m : LineMode) : LineMode :=
  mkLineMode false false false.

(** A console in cooked mode: one key was typed and not read, another is
    to come at time 7. *)
Definition sample_console : Console LineMode :=
  mkConsole (Sample.styled_proc [(0, "a"%byte); (7, "b"%byte)])
    {[ 0 := cooked ]}.

(** The same with the keyboard redirected from a file. *)
Definition redirected_console : Console LineMode :=
  mkConsole (Sample.styled_proc []) ∅.

End MoreSamples.

(** * Properties *)

Section Properties.
Context {imports : Imports}.

(** ** Colours *)

(** C9. [number_of_colors] is never negative: it is the value of the
    numeric [colors] capability when the terminal styles and the capability
    is positive, and 0 in every other case (styling off, capability absent
    or negative). *)
Theorem number_of_colors_nonneg (p : Proc) :
  0 <= number_of_colors p /\
  number_of_colors p =
    if does_styling (self p) && (0 <? tigetnum_colors (os p))
    then tigetnum_colors (os p) else 0.
Proof.
  unfold number_of_colors, py_or, py_and. cbn [truthy].
  destruct (does_styling (self p)); cbn [andb truthy as_int].
  - destruct (Z.eqb_spec (tigetnum_colors (os p)) 0) as [E|E]; cbn [negb as_int].
    + rewrite E. cbn. lia.
    + destruct (Z.ltb_spec 0 (tigetnum_colors (os p))); lia.
  - cbn. lia.
Qed.

(** ** Window size *)

Lemma query_candidates_not_IOError (w : World) (fds : list (option Z)) :
  query_candidates w fds <> Some (Raise IOError).
Proof.
  induction fds as [|[d|] fds IH]; cbn; try congruence.
  unfold _winsize. destruct (ioctl_winsz w d) as [[[[r c] x] y]|]; congruence.
Qed.

Lemma query_candidates_returns (w : World) (fds : list (option Z)) r :
  query_candidates w fds = Some r -> exists z, r = Ok z.
Proof.
  induction fds as [|[d|] fds IH]; cbn; try congruence; auto.
  unfold _winsize. destruct (ioctl_winsz w d) as [[[[r' c] x] y]|]; auto.
  intros [= <-]. eauto.
Qed.

Lemma query_candidates_all_fail (w : World) (fds : list (option Z)) :
  (forall d, In (Some d) fds -> ioctl_winsz w d = None) ->
  query_candidates w fds = None.
Proof.
  induction fds as [|[d|] fds IH]; cbn; intros Hall; auto.
  unfold _winsize. rewrite (Hall d) by auto. auto.
Qed.

(** C8, as amended.  When [LINES] and [COLUMNS] (or their defaults 25 and
    80) read as integers, [height] and [width] return integers; they are
    those two values when no candidate descriptor answers the window-size
    query; and in no case does an IOError escape. *)
Theorem height_width_total (p : Proc) (rows cols : Z) :
  py_int (getenv (os p) "LINES" "25") = Ok rows ->
  py_int (getenv (os p) "COLUMNS" "80") = Ok cols ->
  (exists h w, height p = Ok h /\ width p = Ok w) /\
  ((forall d, In (Some d) [_init_descriptor (self p);
                           Some (stdout_fileno (os p))] ->
              ioctl_winsz (os p) d = None) ->
   height p = Ok rows /\ width p = Ok cols) /\
  (environ (os p) !! "LINES" = None -> rows = 25) /\
  (environ (os p) !! "COLUMNS" = None -> cols = 80) /\
  height p <> Raise IOError /\ width p <> Raise IOError.
Proof.
  intros Hr Hc. unfold height, width, _height_and_width.
  split; [|split; [|split; [|split; [|split]]]].
  - destruct (query_candidates _ _) as [r|] eqn:Q.
    + destruct (query_candidates_returns _ _ _ Q) as [z ->]. cbn. eauto.
    + rewrite Hr, Hc. cbn. eauto.
  - intros Hall. rewrite (query_candidates_all_fail _ _ Hall), Hr, Hc.
    split; reflexivity.
  - intros E. unfold getenv in Hr. rewrite E in Hr. vm_compute in Hr. congruence.
  - intros E. unfold getenv in Hc. rewrite E in Hc. vm_compute in Hc. congruence.
  - destruct (query_candidates _ _) as [r|] eqn:Q.
    + destruct (query_candidates_returns _ _ _ Q) as [z ->]. cbn. congruence.
    + rewrite Hr, Hc. cbn. congruence.
  - destruct (query_candidates _ _) as [r|] eqn:Q.
    + destruct (query_candidates_returns _ _ _ Q) as [z ->]. cbn. congruence.
    + rewrite Hr, Hc. cbn. congruence.
Qed.

(** ** Construction *)

(** What [__init__] returns, in terms of what was asked for. *)
Lemma init_result (kind : option string) (stream_arg : option Stream)
    (force_styling : option bool) (w : World) :
  __init__ kind stream_arg force_styling w
  = let '(kind1, styling1, w1) :=
      if styling_requested stream_arg force_styling w
      then init_curses (requested_kind kind w) w
      else (Some (requested_kind kind w), false, w) in
    let kb := match stream_arg with
              | None => Some (stdin_fileno w)
              | Some _ => None
              end in
    let fd := match fileno (default (stdout w) stream_arg) with
              | None => if stdout_fileno w =? 0 then None
                        else Some (stdout_fileno w)
              | Some fd => Some fd
              end in
    let t0 := mkTerminal kb (stream_is_tty stream_arg w) styling1 fd kind1 []
                EmptyString ([], 0) (default (stdout w) stream_arg) ∅ in
    (mkTerminal kb (stream_is_tty stream_arg w) styling1 fd kind1 []
       (preferredencoding w1) ([], 0) (default (stdout w) stream_arg)
       (if styling1 then key_attributes t0 else ∅),
     w1).
Proof.
  unfold __init__, styling_requested, stream_is_tty, requested_kind,
    key_attributes.
  destruct stream_arg as [s|], force_styling as [b|]; cbn [default];
    cbn zeta iota beta.
  all: try replace (bool_decide (is_Some (Some b))) with true by reflexivity.
  all: try replace (bool_decide (is_Some (@None bool))) with false
         by reflexivity.
  all: unfold id.
  all: match goal with
       | |- context [if ?c then init_curses ?k _ else _] =>
           destruct c; [destruct (init_curses k w) as [[k1 s1] w1]|]
       end.
  all: try destruct s1; reflexivity.
Qed.

Lemma setupterm_succeeds (k : string) (w : World) :
  initialised_setupterm w || terminfo w k = true ->
  exists w', setupterm k w = Some w' /\
             _CUR_TERM w' = _CUR_TERM w /\ warnings w' = warnings w /\
             initialised_setupterm w' = true.
Proof.
  unfold setupterm. destruct (initialised_setupterm w) eqn:Hi; cbn.
  - intros _. exists w. auto.
  - intros ->. eexists. split; [reflexivity|]. cbn. auto.
Qed.

Lemma setupterm_fails (k : string) (w : World) :
  initialised_setupterm w || terminfo w k = false -> setupterm k w = None.
Proof.
  unfold setupterm. destruct (initialised_setupterm w); cbn; [discriminate|].
  now intros ->.
Qed.

(** C7. The kind of the process is a singleton.  When styling is asked for
    and [setupterm] succeeds, the terminal styles and is of the requested
    kind; that kind is recorded for the process when none was recorded,
    silently; when one was recorded it stays on record, silently if the
    kinds agree and with the warning that names both kinds if they
    differ. *)
Theorem cur_term_singleton (kind : option string)
    (stream_arg : option Stream) (force_styling : option bool) (w : World) :
  styling_requested stream_arg force_styling w = true ->
  initialised_setupterm w || terminfo w (requested_kind kind w) = true ->
  let k := requested_kind kind w in
  let '(t, w') := __init__ kind stream_arg force_styling w in
  does_styling t = true /\ _kind t = Some k /\
  match _CUR_TERM w with
  | None => _CUR_TERM w' = Some k /\ warnings w' = warnings w
  | Some cur =>
      _CUR_TERM w' = Some cur /\
      warnings w' =
        if String.eqb k cur then warnings w
        else (warnings w ++ [KindMismatch k cur])%list
  end.
Proof.
  intros Hreq Hok. cbv zeta. rewrite init_result, Hreq. unfold init_curses.
  destruct (setupterm_succeeds _ _ Hok) as (w1 & -> & Hc & Hws & Hi).
  rewrite Hc.
  destruct (_CUR_TERM w) as [cur|] eqn:Hcur.
  - destruct (String.eqb_spec (requested_kind kind w) cur) as [->|Hne];
      cbn; rewrite ?Hws, ?Hc, ?Hcur; repeat split.
  - cbn. rewrite ?Hws. repeat split.
Qed.

(** ** Attribute resolution *)

Lemma append_cons (c : ascii) (a s : string) :
  String c a +:+ s = String c (a +:+ s).
Proof. reflexivity. Qed.

Lemma append_nil_l (s : string) : EmptyString +:+ s = s.
Proof. reflexivity. Qed.

Lemma append_nil_r (s : string) : s +:+ EmptyString = s.
Proof.
  induction s as [|c s IH]; [reflexivity|]. now rewrite append_cons, IH.
Qed.

Lemma append_assoc (a b c : string) : (a +:+ b) +:+ c = a +:+ (b +:+ c).
Proof.
  induction a as [|x a IH]; [reflexivity|]. now rewrite !append_cons, IH.
Qed.

Lemma chars_append (a b : string) :
  list_ascii_of_string (a +:+ b)
  = (list_ascii_of_string a ++ list_ascii_of_string b)%list.
Proof.
  induction a as [|c a IH]; [reflexivity|].
  rewrite append_cons. cbn. now rewrite IH.
Qed.

Lemma str_join_chars (args : list string) :
  list_ascii_of_string (str_join args)
  = concat (map list_ascii_of_string args).
Proof.
  induction args as [|a args IH]; cbn; [reflexivity|].
  now rewrite chars_append, IH.
Qed.

(** C6. On a terminal that does not style, [__getattr__] answers every name
    with the null value and leaves the terminal and the process as they
    were, whatever the imported resolver would have done; the null value,
    called with text, gives back the characters of its arguments, in
    order, and nothing else. *)
Theorem getattr_without_styling (p : Proc) (attr : string) :
  does_styling (self p) = false ->
  __getattr__ attr p = (Returns (PyFmt NullCallableString), p) /\
  (forall s, NullCallableString_call [s] = s) /\
  (forall args,
     list_ascii_of_string (NullCallableString_call args)
     = concat (map list_ascii_of_string args)).
Proof.
  intros Hs. split; [|split].
  - unfold __getattr__, mbind_st, get. cbn. rewrite Hs. reflexivity.
  - intros s. unfold NullCallableString_call. cbn. apply append_nil_r.
  - apply str_join_chars.
Qed.

(** ** Wrapping *)

Lemma wrap_loop_spec (t : Terminal) (width' : option Z)
    (kwargs : gmap string pyobj) (text : string) (wrapped : list string)
    (todo lines : list string) :
  SequenceTextWrapper_wrap width' t kwargs text = Ok wrapped ->
  wrap_loop t width' kwargs text todo lines
  = Ok (lines ++ concat (map (fun line =>
                                if strip_nonempty line then wrapped
                                else [EmptyString]) todo))%list.
Proof.
  intros HW. revert lines.
  induction todo as [|line todo IH]; intros lines; cbn.
  - now rewrite app_nil_r.
  - destruct (strip_nonempty line).
    + rewrite HW. cbn. rewrite IH. now rewrite <- app_assoc.
    + rewrite IH. now rewrite <- app_assoc.
Qed.

(** C3, what the code does.  Every line of [text] that is not blank adds
    the wrapping of the whole of [text] to the result, not the wrapping of
    that line. *)
Theorem wrap_rewraps_whole_text (p : Proc) (text : string) (w : Z)
    (kwargs : gmap string pyobj) (wrapped : list string) :
  kwargs !! "break_long_words" = None ->
  SequenceTextWrapper_wrap (Some w) (self p) kwargs text = Ok wrapped ->
  wrap text (Some w) kwargs p
  = Ok (concat (map (fun line =>
                       if strip_nonempty line then wrapped
                       else [EmptyString]) (splitlines text))).
Proof.
  intros Hk HW. unfold wrap. rewrite Hk. cbn.
  now rewrite (wrap_loop_spec _ _ _ _ _ _ _ HW).
Qed.

(** C4. A true [break_long_words] makes [wrap] fail with the assertion,
    whatever the text, the width and the wrapper; without the keyword, or
    with a false value, [wrap] goes on to compute the width and to run its
    loop. *)
Theorem wrap_break_long_words (text : string) (width_arg : option Z)
    (kwargs : gmap string pyobj) (p : Proc) :
  (forall v, kwargs !! "break_long_words" = Some v -> truthy v = true ->
             wrap text width_arg kwargs p = Raise AssertionError) /\
  ((kwargs !! "break_long_words" = None \/
    exists v, kwargs !! "break_long_words" = Some v /\ truthy v = false) ->
   wrap text width_arg kwargs p
   = Py.bind (wrap_width width_arg p) (fun width' =>
       wrap_loop (self p) width' kwargs text (splitlines text) [])).
Proof.
  split.
  - intros v Hv Ht. unfold wrap. rewrite Hv, Ht. reflexivity.
  - intros [Hn | (v & Hv & Ht)]; unfold wrap.
    + rewrite Hn. reflexivity.
    + rewrite Hv, Ht. reflexivity.
Qed.

(** ** The keyboard *)

(** C2, what the code does.  A terminal constructed on a stream of its own
    has no keyboard descriptor; if it does not style, [kbhit] raises a
    TypeError for every timeout: the guard reads [keyboard_fd], a name that
    nothing assigns and that [__getattr__] answers with the null value, so
    [select] is called on [None]. *)
Theorem kbhit_not_interactive_raises (kind : option string) (s : Stream)
    (force_styling : option bool) (w : World) (timeout : option Z) :
  let '(t, w') := __init__ kind (Some s) force_styling w in
  does_styling t = false ->
  kbhit timeout (mkProc t w') = (Raises TypeError, mkProc t w').
Proof.
  unfold __init__. cbn zeta iota beta.
  match goal with
  | |- context [if ?b then init_curses ?k _ else _] =>
      set (k0 := k); destruct b eqn:Hst
  end.
  - unfold init_curses, setupterm, warn.
    destruct (initialised_setupterm w); [|destruct (terminfo w k0)]; cbn.
    1,2: destruct (_CUR_TERM w) as [cur|]; cbn;
         [destruct (String.eqb k0 cur); cbn|]; discriminate.
    intros _. reflexivity.
  - cbn. intros _. reflexivity.
Qed.

(** ** Attribute look-up and [location] *)


Lemma with_dict_id (t : Terminal) : with_dict (__dict__ t) t = t.
Proof. now destruct t. Qed.

Lemma on_self_id (p : Proc) : on_self (with_dict (__dict__ (self p))) p = p.
Proof. destruct p as [t w]. unfold on_self. cbn. now rewrite with_dict_id. Qed.

Lemma caches_refl (p : Proc) : caches p p.
Proof.
  exists (__dict__ (self p)). split; [now rewrite on_self_id|].
  intros b. now rewrite with_dict_id.
Qed.

Lemma caches_trans (p q r : Proc) : caches p q -> caches q r -> caches p r.
Proof.
  intros (d & -> & H1) (e & -> & H2). exists e. split.
  - destruct p as [t w]. reflexivity.
  - intros b. cbn in H2. rewrite <- H1, <- H2. destruct p as [[] w]; reflexivity.
Qed.

Lemma getattr_spec (attr : string) (p : Proc) :
  fst (getattr attr p) = to_run (attr_value (self p) attr) /\
  caches p (snd (getattr attr p)).
Proof.
  unfold getattr, attr_value, mbind_st, get.
  destruct (__dict__ (self p) !! attr) as [v|] eqn:Hd; cbn.
  { split; [reflexivity|apply caches_refl]. }
  unfold __getattr__, mbind_st, get.
  destruct (does_styling (self p)) eqn:Hs; cbn.
  2:{ split; [reflexivity|apply caches_refl]. }
  unfold lift.
  destruct (resolve_attribute (as_constructed (self p)) attr) as [v|e] eqn:Hr;
    cbn.
  2:{ split; [reflexivity|apply caches_refl]. }
  destruct (in_dir (self p) attr); cbn.
  { split; [reflexivity|apply caches_refl]. }
  split; [reflexivity|].
  exists (<[attr := PyFmt v]> (__dict__ (self p))). split; [reflexivity|].
  intros b. unfold attr_value. cbn.
  destruct (decide (attr = b)) as [<-|Hne].
  - rewrite lookup_insert_eq, Hd.
    change (does_styling (self p)) with (_does_styling (self p)) in Hs.
    unfold does_styling. rewrite Hs. cbn. now rewrite Hr.
  - rewrite lookup_insert_ne by done. reflexivity.
Qed.

Lemma getattr_run (attr : string) (p : Proc) :
  exists p', getattr attr p = (to_run (attr_value (self p) attr), p') /\
             caches p p'.
Proof.
  destruct (getattr_spec attr p) as [H1 H2].
  exists (snd (getattr attr p)). split; [|exact H2].
  rewrite <- H1. now destruct (getattr attr p).
Qed.

(** Without a keyboard descriptor [kbhit] gives no answer at all, unless
    somebody stored [None] under [keyboard_fd]. *)
Lemma kbhit_without_descriptor (timeout : option Z) (p : Proc) (b : bool)
    (p' : Proc) :
  stream_kb (self p) = None ->
  attr_value (self p) "keyboard_fd" <> Ok PyNone ->
  kbhit timeout p <> (Returns b, p').
Proof.
  intros Hkb Hv. unfold kbhit, mbind_st.
  destruct (getattr_run "keyboard_fd" p) as (pm & -> & (d & -> & _)).
  destruct (attr_value (self p) "keyboard_fd") as [v|e]; cbn [to_run];
    [|discriminate].
  destruct v; try congruence; cbn [is_None]; unfold get;
    (replace (stream_kb (self (on_self (with_dict d) p))) with (@None Z)
       by (rewrite <- Hkb; destruct p; reflexivity));
    discriminate.
Qed.

Lemma stream_write_run (o : pyobj) (s : string) (p : Proc) :
  as_text o = Ok s ->
  stream_write o p
  = (Returns tt,
     on_self (fun t => with_stream
                (mkStream (fileno (stream t)) (written (stream t) +:+ s)) t) p).
Proof.
  unfold as_text, stream_write. destruct (text_of o); [|discriminate].
  now intros [= ->].
Qed.

Lemma bind_Ok {A B} (m : outcome A) (k : A -> outcome B) (b : B) :
  Py.bind m k = Ok b -> exists a, m = Ok a /\ k a = Ok b.
Proof. destruct m; cbn; [eauto|discriminate]. Qed.

Lemma location_enter_run (p : Proc) (x y : option Z) (save mv : string) :
  Py.bind (attr_value (self p) "save") as_text = Ok save ->
  location_movement (self p) x y = Ok mv ->
  exists d,
    location_enter x y p
    = (Returns tt,
       on_self (fun t => with_stream
                  (mkStream (fileno (stream t))
                     (written (stream t) +:+ save +:+ mv)) (with_dict d t)) p).
Proof.
  intros Hs Hm. apply bind_Ok in Hs as (vs & Hv & Hts).
  unfold location_enter, mbind_st.
  destruct (getattr_run "save" p) as (p1 & -> & (d1 & -> & Hd1)).
  rewrite Hv. cbn [to_run]. rewrite (stream_write_run _ _ _ Hts).
  unfold location_movement in Hm.
  assert (Hstep : forall name args,
            Py.bind (attr_value (self p) name)
              (fun m => Py.bind (call_ints m args) as_text) = Ok mv ->
            exists d,
              (move <~ getattr name;;
               s <~ lift (call_ints move args);;
               stream_write s)
                (on_self (fun t => with_stream
                   (mkStream (fileno (stream t)) (written (stream t) +:+ save))
                   t) (on_self (with_dict d1) p))
              = (Returns tt,
                 on_self (fun t => with_stream
                   (mkStream (fileno (stream t))
                      (written (stream t) +:+ save +:+ mv)) (with_dict d t)) p)).
  { intros name args Hb.
    apply bind_Ok in Hb as (m & Hm1 & Hb). apply bind_Ok in Hb as (o & Ho & Hto).
    unfold mbind_st.
    match goal with |- context [getattr name ?q] =>
      destruct (getattr_run name q) as (p2 & -> & (d2 & -> & Hd2)) end.
    replace (attr_value _ name) with (Ok m).
    2:{ rewrite <- Hm1, <- (Hd1 name). reflexivity. }
    cbn [to_run]. unfold lift. rewrite Ho. cbn [to_run].
    rewrite (stream_write_run _ _ _ Hto).
    exists d2. destruct p as [t w]. unfold on_self. cbn.
    now rewrite append_assoc. }
  destruct x as [x'|], y as [y'|]; try (apply Hstep; exact Hm).
  injection Hm as <-. exists d1. rewrite append_nil_r.
  destruct p as [t w]. reflexivity.
Qed.

Lemma location_exit_run (p : Proc) (restore : string) :
  Py.bind (attr_value (self p) "restore") as_text = Ok restore ->
  exists d,
    location_exit p
    = (Returns tt,
       on_self (fun t => with_stream
                  (mkStream (fileno (stream t))
                     (written (stream t) +:+ restore)) (with_dict d t)) p).
Proof.
  intros Hr. apply bind_Ok in Hr as (v & Hv & Ht).
  unfold location_exit, mbind_st.
  destruct (getattr_run "restore" p) as (p1 & -> & (d1 & -> & Hd1)).
  rewrite Hv. cbn [to_run]. rewrite (stream_write_run _ _ _ Ht).
  exists d1. destruct p as [t w]. reflexivity.
Qed.

(** C10. [location] writes the save sequence and then the movement that
    its arguments ask for, a coordinate of 0 like any other ([x] and [y]
    are both given in [location(0, 0)]); whatever the body does, returning
    or raising, the restore sequence is written after it and the body's
    own result is the result of the block. *)
Theorem location_moves_and_restores (p : Proc) (x y : option Z)
    (body : M Proc unit) (save mv : string) :
  Py.bind (attr_value (self p) "save") as_text = Ok save ->
  location_movement (self p) x y = Ok mv ->
  fst (location_enter x y p) = Returns tt /\
  written (stream (self (snd (location_enter x y p))))
  = written (stream (self p)) +:+ save +:+ mv /\
  forall r p2 restore,
    body (snd (location_enter x y p)) = (r, p2) ->
    (r = Returns tt \/ exists e, r = Raises e) ->
    Py.bind (attr_value (self p2) "restore") as_text = Ok restore ->
    fst (location x y body p) = r /\
    written (stream (self (snd (location x y body p))))
    = written (stream (self p2)) +:+ restore.
Proof.
  intros Hs Hm.
  destruct (location_enter_run p x y save mv Hs Hm) as (d & He).
  rewrite He. cbn [fst snd]. split; [reflexivity|]. split.
  { destruct p as [t w]. reflexivity. }
  intros r p2 restore Hb Hr Hrs.
  unfold location, mbind_st. rewrite He. unfold try_finally. rewrite Hb.
  destruct (location_exit_run p2 restore Hrs) as (d2 & Hx).
  destruct Hr as [-> | [e ->]]; rewrite Hx; cbn [fst snd];
    (split; [reflexivity|destruct p2 as [t2 w2]; reflexivity]).
Qed.

(** ** Keyboard: what each step does to the process *)

Lemma mbind_Returns {S A B} (m : M S A) (k : A -> M S B) s b s' :
  mbind_st m k s = (Returns b, s') ->
  exists a sm, m s = (Returns a, sm) /\ k a sm = (Returns b, s').
Proof.
  unfold mbind_st. destruct (m s) as [[a| | |] sm]; try discriminate. eauto.
Qed.

Lemma caches_fields (p p' : Proc) :
  caches p p' ->
  os p' = os p /\
  stream_kb (self p') = stream_kb (self p) /\
  _keyboard_buf (self p') = _keyboard_buf (self p) /\
  _keyboard_decoder (self p') = _keyboard_decoder (self p) /\
  forall b, attr_value (self p') b = attr_value (self p) b.
Proof.
  intros (d & -> & Hd). destruct p as [t w]. cbn. repeat split. exact Hd.
Qed.

Ltac eqn_in :=
  let Heq := fresh "Heq" in intros Heq; inversion Heq; subst; clear Heq.

(** [select] moves the clock and nothing else, and by no more than its
    timeout. *)
Lemma select_select_frame (fd : option Z) (timeout : option Z) (p : Proc)
    r p' :
  select_select fd timeout p = (r, p') ->
  self p' = self p /\ stdin (os p') = stdin (os p) /\
  now (os p) <= now (os p') /\
  (forall t, timeout = Some t -> now (os p') <= now (os p) + Z.max 0 t).
Proof.
  unfold select_select. destruct p as [t w]. cbn.
  assert (Hsame : self (mkProc t w) = t /\
                  stdin (os (mkProc t w)) = stdin w /\
                  now w <= now (os (mkProc t w)) /\
                  (forall t0, timeout = Some t0 ->
                     now (os (mkProc t w)) <= now w + Z.max 0 t0)).
  { cbn. repeat split; intros; lia. }
  destruct fd as [fd|]; [|eqn_in; exact Hsame].
  destruct timeout as [tm|].
  - destruct (Z.ltb_spec tm 0); [eqn_in; exact Hsame|].
    destruct (next_readable w) as [a|] eqn:Hin.
    + destruct (Z.leb_spec a (now w + tm)); eqn_in; cbn;
        repeat split; try lia; intros ? [= <-]; lia.
    + eqn_in; cbn. repeat split; try lia. intros ? [= <-]. lia.
  - destruct (next_readable w) as [a|] eqn:Hin; eqn_in; [|exact Hsame].
    cbn. repeat split; try lia. discriminate.
Qed.

Lemma with_clock_eof (n : Z) (l : list (Z * byte)) (w : World) :
  stdin_eof (with_clock n l w) = stdin_eof w.
Proof. reflexivity. Qed.

Lemma select_select_eof (fd : option Z) (timeout : option Z) (p : Proc)
    r p' :
  select_select fd timeout p = (r, p') ->
  stdin_eof (os p') = stdin_eof (os p).
Proof.
  unfold select_select. destruct p as [t w]. cbn.
  destruct fd as [fd|]; [|now eqn_in].
  destruct timeout as [tm|].
  - destruct (tm <? 0); [now eqn_in|].
    destruct (next_readable w) as [a|]; [destruct (a <=? now w + tm)|];
      now eqn_in.
  - destruct (next_readable w) as [a|]; now eqn_in.
Qed.

(** It says "readable" only when the next byte has arrived or end-of-file
    was reached. *)
Lemma select_select_ready (fd : option Z) (timeout : option Z) (p : Proc)
    l p' :
  select_select fd timeout p = (Returns l, p') ->
  l = [] \/
  (l = [fd] /\ exists a,
     next_readable (os p) = Some a /\ a <= now (os p')).
Proof.
  unfold select_select. destruct p as [t w]. cbn.
  destruct fd as [fd|]; [|discriminate].
  destruct timeout as [tm|].
  - destruct (Z.ltb_spec tm 0); [discriminate|].
    destruct (next_readable w) as [a|].
    + destruct (Z.leb_spec a (now w + tm)); eqn_in; [right|now left].
      split; [reflexivity|]. exists a. cbn. split; [reflexivity|lia].
    + eqn_in. now left.
  - destruct (next_readable w) as [a|]; [|discriminate].
    eqn_in. right. split; [reflexivity|].
    exists a. cbn. split; [reflexivity|lia].
Qed.

Lemma select_select_quiet (fd t : Z) (p : Proc) :
  0 <= t -> quiet_for t (os p) ->
  select_select (Some fd) (Some t) p
  = (Returns [], on_os (with_clock (now (os p) + t) (stdin (os p))) p).
Proof.
  unfold select_select, quiet_for. intros Ht Hq.
  destruct (Z.ltb_spec t 0); [lia|].
  destruct (next_readable (os p)) as [a|]; [|reflexivity].
  destruct (Z.leb_spec a (now (os p) + t)); [lia|reflexivity].
Qed.

(** [kbhit]: the terminal keeps its keyboard state and the values of its
    attributes; the clock moves on by no more than the timeout; an answer
    of [True] means that the next byte has arrived or end-of-file was
    reached. *)
Lemma kbhit_frame (timeout : option Z) (p : Proc) r p' :
  kbhit timeout p = (r, p') ->
  caches p (mkProc (self p') (os p)) /\
  stdin (os p') = stdin (os p) /\
  now (os p) <= now (os p') /\
  (forall t, timeout = Some t -> now (os p') <= now (os p) + Z.max 0 t) /\
  (r = Returns true ->
   exists a, next_readable (os p) = Some a /\ a <= now (os p')).
Proof.
  unfold kbhit, mbind_st.
  destruct (getattr_run "keyboard_fd" p) as (pm & -> & Hc).
  assert (Hpm : caches p (mkProc (self pm) (os p))).
  { destruct Hc as (d & -> & Hd). exists d. split; [|exact Hd].
    destruct p; reflexivity. }
  destruct (caches_fields _ _ Hc) as (Hos & _).
  assert (Hidle : forall r0 : run bool, r0 <> Returns true ->
            caches p (mkProc (self pm) (os p)) /\
            stdin (os pm) = stdin (os p) /\
            now (os p) <= now (os pm) /\
            (forall t, timeout = Some t ->
                       now (os pm) <= now (os p) + Z.max 0 t) /\
            (r0 = Returns true ->
             exists a, next_readable (os p) = Some a /\ a <= now (os pm))).
  { intros r0 Hne. rewrite Hos. split; [exact Hpm|]. split; [reflexivity|].
    split; [lia|]. split; [intros; lia|]. intros E; contradiction. }
  destruct (attr_value (self p) "keyboard_fd") as [v|e]; cbn [to_run];
    [|eqn_in; now apply Hidle].
  destruct (is_None v); [eqn_in; now apply Hidle|].
  unfold get.
  destruct (select_select (stream_kb (self pm)) timeout pm) as [rs ps] eqn:Hsel.
  destruct (select_select_frame _ _ _ _ _ Hsel) as (Hself & Hin & Hnow & Hbound).
  rewrite Hos in *.
  assert (Hgen : caches p (mkProc (self ps) (os p)) /\
                 stdin (os ps) = stdin (os p) /\
                 now (os p) <= now (os ps) /\
                 (forall t, timeout = Some t ->
                            now (os ps) <= now (os p) + Z.max 0 t)).
  { rewrite Hself. repeat split; auto. }
  destruct Hgen as (G1 & G2 & G3 & G4).
  destruct rs as [l| e | |]; eqn_in;
    (split; [exact G1|split; [exact G2|split; [exact G3|split; [exact G4|]]]]);
    try discriminate.
  intros [= Hd]. apply bool_decide_eq_true in Hd.
  destruct (select_select_ready _ _ _ _ _ Hsel)
    as [-> | (_ & a & Hs & Ha)]; [discriminate|].
  rewrite Hos in Hs. eauto.
Qed.

Lemma kbhit_eof (timeout : option Z) (p : Proc) r p' :
  kbhit timeout p = (r, p') -> stdin_eof (os p') = stdin_eof (os p).
Proof.
  unfold kbhit, mbind_st.
  destruct (getattr_run "keyboard_fd" p) as (pm & -> & Hc).
  destruct (caches_fields _ _ Hc) as (Hos & _). rewrite <- Hos.
  destruct (attr_value (self p) "keyboard_fd") as [v|e]; cbn [to_run];
    [|now eqn_in].
  destruct (is_None v); [now eqn_in|]. unfold get.
  destruct (select_select (stream_kb (self pm)) timeout pm) as [rs ps] eqn:Hsel.
  apply select_select_eof in Hsel.
  destruct rs; now eqn_in.
Qed.


Lemma kbhit_quiet (p : Proc) (v : pyobj) (fd t : Z) :
  attr_value (self p) "keyboard_fd" = Ok v -> is_None v = false ->
  stream_kb (self p) = Some fd -> 0 <= t -> quiet_for t (os p) ->
  exists d,
    kbhit (Some t) p
    = (Returns false,
       mkProc (with_dict d (self p))
         (with_clock (now (os p) + t) (stdin (os p)) (os p))) /\
    forall b, attr_value (with_dict d (self p)) b = attr_value (self p) b.
Proof.
  intros Hv Hn Hfd Ht Hq. unfold kbhit, mbind_st.
  destruct (getattr_run "keyboard_fd" p) as (pm & -> & (d & -> & Hd)).
  rewrite Hv. cbn [to_run]. rewrite Hn. unfold get.
  replace (stream_kb (self (on_self (with_dict d) p))) with (Some fd)
    by (rewrite <- Hfd; destruct p; reflexivity).
  rewrite select_select_quiet; [|exact Ht|destruct p; exact Hq].
  exists d. split; [|exact Hd]. destruct p as [t0 w]. reflexivity.
Qed.

(** [_decode_next] reads the next byte and decodes it; at end-of-file it
    reads nothing, gives no text and leaves the decoder as it was. *)
Lemma decode_next_spec (p : Proc) (s : string) (p' : Proc) :
  _decode_next p = (Returns s, p') ->
  (exists a b rest st',
     stdin (os p) = (a, b) :: rest /\
     decoder_decode (_keyboard_decoder (self p)) b = Ok (s, st') /\
     p' = mkProc (with_keyboard_decoder st' (self p))
            (with_clock (Z.max (now (os p)) a) rest (os p))) \/
  (exists a,
     stdin (os p) = [] /\ stdin_eof (os p) = Some a /\ s = EmptyString /\
     p' = mkProc (with_keyboard_decoder (_keyboard_decoder (self p)) (self p))
            (with_clock (Z.max (now (os p)) a) [] (os p))).
Proof.
  unfold _decode_next, mbind_st, get, os_read, lift, modify, ret.
  destruct (stream_kb (self p)); [|discriminate].
  destruct (stdin (os p)) as [|[a b] rest] eqn:Hin.
  - destruct (stdin_eof (os p)) as [a|] eqn:He; [|discriminate].
    cbn. eqn_in. right. exists a. repeat split; destruct p; reflexivity.
  - cbn. destruct (decoder_decode _ b) as [[s' st']|e] eqn:Hdec; cbn;
      [|discriminate].
    eqn_in. left. exists a, b, rest, st'.
    split; [reflexivity|split; [exact Hdec|destruct p; reflexivity]].
Qed.



(** ** Keyboard: the text read is the text decoded *)

Lemma consumed_refl (p : Proc) : consumed p p EmptyString.
Proof. exists 0%nat. repeat split. Qed.

Lemma consumed_same (p p' : Proc) :
  stdin (os p') = stdin (os p) ->
  _keyboard_decoder (self p') = _keyboard_decoder (self p) ->
  _keyboard_buf (self p') = _keyboard_buf (self p) ->
  consumed p p' EmptyString.
Proof.
  intros H1 H2 H3. exists 0%nat. cbn. rewrite H2. repeat split; auto.
Qed.

Lemma decode_all_app (st : list byte * Z) (xs ys : list byte) :
  decode_all st (xs ++ ys)
  = Py.bind (decode_all st xs) (fun r =>
    Py.bind (decode_all (snd r) ys) (fun r' =>
    Ok (fst r +:+ fst r', snd r'))).
Proof.
  revert st. induction xs as [|x xs IH]; intros st; cbn.
  - destruct (decode_all st ys) as [[s st']|e]; reflexivity.
  - destruct (decoder_decode st x) as [[s st']|e]; cbn; [|reflexivity].
    rewrite IH. destruct (decode_all st' xs) as [[s1 st1]|e]; cbn; [|reflexivity].
    destruct (decode_all st1 ys) as [[s2 st2]|e]; cbn; [|reflexivity].
    now rewrite append_assoc.
Qed.

Lemma consumed_trans (p q r : Proc) (f g : string) :
  consumed p q f -> consumed q r g -> consumed p r (f +:+ g).
Proof.
  intros (n & Hn1 & Hn2 & Hn3) (m & Hm1 & Hm2 & Hm3).
  exists (n + m)%nat. split; [|split].
  - rewrite Hm1, Hn1. now rewrite drop_drop.
  - rewrite <- take_take_drop, map_app, decode_all_app, Hn2. cbn.
    rewrite <- Hn1, Hm2. reflexivity.
  - congruence.
Qed.

Lemma caches_consumed (p p' : Proc) : caches p p' -> consumed p p' EmptyString.
Proof.
  intros Hc. destruct (caches_fields _ _ Hc) as (Hos & _ & Hb & Hd & _).
  apply consumed_same; congruence.
Qed.

Lemma getattr_consumed (attr : string) (p : Proc) r p' :
  getattr attr p = (r, p') -> consumed p p' EmptyString.
Proof.
  destruct (getattr_run attr p) as (q & -> & Hc). eqn_in.
  now apply caches_consumed.
Qed.

Lemma kbhit_consumed (timeout : option Z) (p : Proc) r p' :
  kbhit timeout p = (r, p') -> consumed p p' EmptyString.
Proof.
  intros Hk. destruct (kbhit_frame _ _ _ _ Hk) as (Hc & Hin & _).
  destruct (caches_fields _ _ Hc) as (_ & _ & Hb & Hd & _). cbn in Hb, Hd.
  now apply consumed_same.
Qed.

Lemma decode_next_consumed (p : Proc) (s : string) (p' : Proc) :
  _decode_next p = (Returns s, p') -> consumed p p' s.
Proof.
  intros Hd.
  destruct (decode_next_spec _ _ _ Hd)
    as [(a & b & rest & st' & Hin & Hdec & ->)
       |(a & Hin & He & -> & ->)].
  - exists 1%nat. rewrite Hin. cbn. rewrite Hdec, take_0, drop_0. cbn.
    rewrite append_nil_r. repeat split.
  - exists 0%nat. rewrite Hin. cbn. repeat split.
Qed.

Lemma timeleft_state (stime : Z) (timeout : option Z) (p : Proc) r p' :
  _timeleft stime timeout p = (r, p') -> p' = p.
Proof.
  unfold _timeleft. destruct timeout as [t|]; [|now eqn_in].
  destruct (t =? 0); now eqn_in.
Qed.

Lemma lift_state {A} (o : outcome A) (p : Proc) r p' :
  lift o p = (r, p') -> p' = p /\ r = to_run o.
Proof. unfold lift. now eqn_in. Qed.

Tactic Notation "bind_inv" hyp(H) "as" ident(a) ident(q) ident(H1) :=
  apply mbind_Returns in H as (a & q & H1 & H).

Lemma append_nil_r' (s : string) : s = s +:+ EmptyString.
Proof. now rewrite append_nil_r. Qed.

Ltac stop_here Hr Hc :=
  inversion Hr; subst; exists EmptyString;
  split; [apply append_nil_r'|exact Hc].

Lemma consumed_nil_l (p q r : Proc) (f : string) :
  consumed p q EmptyString -> consumed q r f -> consumed p r f.
Proof.
  intros H1 H2. replace f with (EmptyString +:+ f) by reflexivity.
  eapply consumed_trans; eassumption.
Qed.

Lemma recv_available_consumed (fuel : nat) (ucs : string) (p : Proc)
    (ucs' : string) (p' : Proc) :
  recv_available fuel ucs p = (Returns ucs', p') ->
  exists fresh, ucs' = ucs +:+ fresh /\ consumed p p' fresh.
Proof.
  revert ucs p. induction fuel as [|fuel IH]; intros ucs p Hr; cbn in Hr.
  all: bind_inv Hr as ready q Hk; apply kbhit_consumed in Hk.
  all: destruct ready; [|stop_here Hr Hk].
  - discriminate.
  - bind_inv Hr as s q' Hd. apply decode_next_consumed in Hd.
    apply IH in Hr as (fresh & -> & Hc).
    exists (s +:+ fresh). split; [apply append_assoc|].
    eapply consumed_nil_l; [exact Hk|]. eapply consumed_trans; eassumption.
Qed.

Lemma recv_blocking_consumed (fuel : nat) resolve (stime : Z)
    (timeout : option Z) (ucs : string) (ks : Keystroke) (p : Proc)
    (ucs' : string) (ks' : Keystroke) (p' : Proc) :
  stateless resolve ->
  recv_blocking fuel resolve stime timeout ucs ks p = (Returns (ucs', ks'), p') ->
  exists fresh, ucs' = ucs +:+ fresh /\ consumed p p' fresh.
Proof.
  intros Hres. revert ucs ks p.
  induction fuel as [|fuel IH]; intros ucs ks p Hr; cbn in Hr.
  all: destruct (str_is_empty (ks_text ks));
    [|inversion Hr; subst; exists EmptyString;
      split; [apply append_nil_r'|apply consumed_refl]].
  all: bind_inv Hr as left q0 Ht; apply timeleft_state in Ht as ->.
  all: bind_inv Hr as ready q Hk; apply kbhit_consumed in Hk.
  all: destruct ready; [|stop_here Hr Hk].
  - discriminate.
  - bind_inv Hr as s q' Hd. apply decode_next_consumed in Hd.
    bind_inv Hr as ks1 q'' Hrs. apply Hres in Hrs as ->.
    apply IH in Hr as (fresh & -> & Hc).
    exists (s +:+ fresh). split; [apply append_assoc|].
    eapply consumed_nil_l; [exact Hk|]. eapply consumed_trans; eassumption.
Qed.

Lemma recv_escape_consumed (fuel : nat) resolve (esctime : Z)
    (esc_delay : option Z) (ucs : string) (ks : Keystroke) (p : Proc)
    (ucs' : string) (ks' : Keystroke) (p' : Proc) :
  stateless resolve ->
  recv_escape fuel resolve esctime esc_delay ucs ks p = (Returns (ucs', ks'), p') ->
  exists fresh, ucs' = ucs +:+ fresh /\ consumed p p' fresh.
Proof.
  intros Hres. revert ucs ks p.
  induction fuel as [|fuel IH]; intros ucs ks p Hr; cbn in Hr.
  all: bind_inv Hr as esc q0 Hg; apply getattr_consumed in Hg.
  all: destruct (py_is (code_obj ks) esc); [|stop_here Hr Hg].
  all: bind_inv Hr as left q1 Ht; apply timeleft_state in Ht as ->.
  all: bind_inv Hr as ready q Hk; apply kbhit_consumed in Hk.
  all: pose proof (consumed_nil_l _ _ _ _ Hg Hk) as Hq.
  all: destruct ready; [|stop_here Hr Hq].
  - discriminate.
  - bind_inv Hr as s q' Hd. apply decode_next_consumed in Hd.
    bind_inv Hr as ks1 q'' Hrs. apply Hres in Hrs as ->.
    apply IH in Hr as (fresh & -> & Hc).
    exists (s +:+ fresh). split; [apply append_assoc|].
    eapply consumed_nil_l; [exact Hq|]. eapply consumed_trans; eassumption.
Qed.


Lemma rebuffer_eq (fuel : nat) (ucs : string) (p : Proc) :
  rebuffer fuel ucs p
  = match _keyboard_buf (self p) with
    | [] => (Returns ucs, p)
    | _ :: _ =>
        match fuel with
        | O => (OutOfFuel, p)
        | S fuel' =>
            mbind_st deque_pop
              (fun c => rebuffer fuel' (ucs +:+ str_of_char c)) p
        end
    end.
Proof.
  destruct fuel; cbn [rebuffer]; unfold mbind_st at 1; unfold get;
    destruct (_keyboard_buf (self p)); reflexivity.
Qed.

Lemma with_keyboard_buf_id (p : Proc) (b : list ascii) :
  _keyboard_buf (self p) = b -> on_self (with_keyboard_buf b) p = p.
Proof. intros <-. destruct p as [[] w]. reflexivity. Qed.

Lemma rebuffer_rev (r : list ascii) :
  forall (fuel : nat) (ucs : string) (p : Proc),
    _keyboard_buf (self p) = rev r -> (length r <= fuel)%nat ->
    rebuffer fuel ucs p
    = (Returns (ucs +:+ string_of_list_ascii r),
       on_self (with_keyboard_buf []) p).
Proof.
  induction r as [|c r IH]; intros fuel ucs p Hbuf Hlen; rewrite rebuffer_eq.
  - cbn in Hbuf. rewrite Hbuf, append_nil_r.
    now rewrite (with_keyboard_buf_id p [] Hbuf).
  - cbn in Hbuf. rewrite Hbuf.
    destruct (rev r ++ [c])%list as [|x xs] eqn:Hx.
    { now destruct (rev r). }
    destruct fuel as [|fuel]; [cbn in Hlen; lia|].
    unfold mbind_st, deque_pop. rewrite Hbuf, <- Hx, rev_app_distr, rev_involutive.
    cbn [rev app]. rewrite IH.
    + unfold str_of_char. cbn [string_of_list_ascii].
      rewrite append_assoc. destruct p as [t w]. reflexivity.
    + destruct p as [[] w]. reflexivity.
    + cbn in Hlen. lia.
Qed.

(** Draining the deque gives its characters from the right end to the
    left. *)
Lemma rebuffer_drains (ucs : string) (p : Proc) :
  rebuffer (length (_keyboard_buf (self p))) ucs p
  = (Returns (ucs +:+ string_of_list_ascii (rev (_keyboard_buf (self p)))),
     on_self (with_keyboard_buf []) p).
Proof.
  apply rebuffer_rev; [now rewrite rev_involutive|now rewrite length_rev].
Qed.


Lemma lift_stateless {A} (f : string -> outcome A) :
  stateless (fun text => lift (f text) : M Proc A).
Proof. intros text p r p' Hl. now apply lift_state in Hl. Qed.

Lemma consumed_with_buf (b : list ascii) (p q : Proc) (f : string) :
  consumed p q f ->
  consumed (on_self (with_keyboard_buf b) p) (on_self (with_keyboard_buf b) q) f.
Proof.
  intros (n & Hin & Hdec & _). exists n.
  destruct p as [t w], q as [t' w']. cbn in *. repeat split; assumption.
Qed.

Lemma inkey_receive_consumed (timeout : option Z) (p : Proc) resolve
    (ucs : string) (ks : Keystroke) (p' : Proc) :
  inkey_receive timeout p = (Returns (resolve, ucs, ks), p') ->
  stateless resolve /\
  exists fresh,
    ucs = string_of_list_ascii (rev (_keyboard_buf (self p))) +:+ fresh /\
    consumed (on_self (with_keyboard_buf []) p) p' fresh.
Proof.
  intros Hr. unfold inkey_receive in Hr.
  bind_inv Hr as mapper q1 Hm. bind_inv Hr as codes q2 Hc.
  apply getattr_consumed in Hm, Hc.
  pose proof (consumed_nil_l _ _ _ _ Hm Hc) as H12.
  bind_inv Hr as stime q3 Ht. inversion Ht; subst q3; clear Ht.
  bind_inv Hr as q4 q5 Hg. inversion Hg; subst q4 q5; clear Hg.
  bind_inv Hr as ucs0 q6 Hb. rewrite rebuffer_drains in Hb.
  inversion Hb; subst ucs0 q6; clear Hb.
  bind_inv Hr as n q7 Hn. inversion Hn; subst n q7; clear Hn.
  bind_inv Hr as ucs1 q8 Ha. apply recv_available_consumed in Ha as (f1 & -> & Ha).
  bind_inv Hr as ks0 q9 Hl. apply lift_state in Hl as [-> _].
  bind_inv Hr as n q10 Hn. inversion Hn; subst n q10; clear Hn.
  bind_inv Hr as r q11 Hbl. destruct r as [ucs2 ks2].
  apply recv_blocking_consumed in Hbl as (f2 & -> & Hbl);
    [|apply lift_stateless].
  inversion Hr; subst. split; [apply lift_stateless|].
  exists (f1 +:+ f2). cbn [fst snd]. split.
  - destruct H12 as (n & _ & _ & Hbuf). rewrite Hbuf.
    now rewrite append_nil_l, append_assoc.
  - eapply consumed_nil_l; [|eapply consumed_trans; eassumption].
    now apply consumed_with_buf.
Qed.

Lemma inkey_escape_consumed resolve (esc_delay : option Z) (ucs : string)
    (ks : Keystroke) (p : Proc) (ucs' : string) (ks' : Keystroke) (p' : Proc) :
  stateless resolve ->
  inkey_escape resolve esc_delay ucs ks p = (Returns (ucs', ks'), p') ->
  exists fresh, ucs' = ucs +:+ fresh /\ consumed p p' fresh.
Proof.
  intros Hres Hr. unfold inkey_escape in Hr.
  bind_inv Hr as esc q0 Hg. apply getattr_consumed in Hg.
  destruct (py_is (code_obj ks) esc); [|stop_here Hr Hg].
  bind_inv Hr as esctime q1 Ht. inversion Ht; subst esctime q1; clear Ht.
  bind_inv Hr as n q2 Hn. inversion Hn; subst n q2; clear Hn.
  apply recv_escape_consumed in Hr as (fresh & -> & Hc); [|exact Hres].
  exists fresh. split; [reflexivity|].
  eapply consumed_nil_l; eassumption.
Qed.

Lemma inkey_resolved_consumed (timeout esc_delay : option Z) (p : Proc)
    (ucs : string) (ks : Keystroke) (p' : Proc) :
  inkey_resolved timeout esc_delay p = (Returns (ucs, ks), p') ->
  exists fresh,
    ucs = string_of_list_ascii (rev (_keyboard_buf (self p))) +:+ fresh /\
    consumed (on_self (with_keyboard_buf []) p) p' fresh.
Proof.
  intros Hr. unfold inkey_resolved in Hr.
  bind_inv Hr as r q Hrec. destruct r as [[resolve ucs0] ks0].
  apply inkey_receive_consumed in Hrec as (Hres & f1 & -> & Hc1).
  apply inkey_escape_consumed in Hr as (f2 & -> & Hc2); [|exact Hres].
  exists (f1 +:+ f2). split; [apply append_assoc|].
  eapply consumed_trans; eassumption.
Qed.

Lemma deque_extendleft_rev (s : string) (d : list ascii) :
  deque_extendleft s d = (rev (list_ascii_of_string s) ++ d)%list.
Proof.
  unfold deque_extendleft. revert d.
  induction (list_ascii_of_string s) as [|c l IH]; intros d; cbn;
    [reflexivity|].
  rewrite IH. now rewrite <- app_assoc.
Qed.

Lemma str_take_drop (n : nat) (s : string) :
  str_take n s +:+ str_drop n s = s.
Proof.
  revert s. induction n as [|n IH]; intros [|c s]; cbn; try reflexivity.
  now rewrite append_cons, IH.
Qed.

(** C1. When [inkey] returns a keystroke, the text it had read splits into
    the characters of the keystroke's length and the rest; popping the
    buffer it leaves gives back exactly that rest, in order; and the text
    that any later call on this terminal resolves is that rest followed by
    the decoding of the bytes which the later call itself reads, each
    taken once from the keyboard, in order. *)
Theorem inkey_carry_over (timeout esc_delay : option Z) (p : Proc)
    (ks1 : Keystroke) (p1 : Proc) :
  inkey timeout esc_delay p = (Returns ks1, p1) ->
  exists ucs1 rest,
    ucs1 = str_take (String.length (ks_text ks1)) ucs1 +:+ rest /\
    rest = str_drop (String.length (ks_text ks1)) ucs1 /\
    fst (inkey_resolved timeout esc_delay p) = Returns (ucs1, ks1) /\
    rebuffer (length (_keyboard_buf (self p1))) EmptyString p1
    = (Returns rest, on_self (with_keyboard_buf []) p1) /\
    forall (w2 : World) (timeout2 esc_delay2 : option Z)
           (ucs2 : string) (ks2 : Keystroke) (p2 : Proc),
      inkey_resolved timeout2 esc_delay2 (mkProc (self p1) w2)
      = (Returns (ucs2, ks2), p2) ->
      exists fresh n,
        ucs2 = rest +:+ fresh /\
        stdin (os p2) = drop n (stdin w2) /\
        decode_all (_keyboard_decoder (self p1))
          (map snd (take n (stdin w2)))
        = Ok (fresh, _keyboard_decoder (self p2)).
Proof.
  intros Hk. unfold inkey in Hk.
  bind_inv Hk as r q Hres. destruct r as [ucs1 ks].
  bind_inv Hk as u q' Hmod. inversion Hk; subst ks q'; clear Hk.
  inversion Hmod; subst u p1; clear Hmod.
  destruct (inkey_resolved_consumed _ _ _ _ _ _ Hres) as (f & Hucs & Hc).
  assert (Hq : _keyboard_buf (self q) = []) by (destruct Hc as (n & _ & _ & Hb); exact Hb).
  set (rest := str_drop (String.length (ks_text ks1)) ucs1).
  assert (Hbuf : _keyboard_buf (self (on_self (fun t =>
             with_keyboard_buf (deque_extendleft rest (_keyboard_buf t)) t) q))
           = rev (list_ascii_of_string rest)).
  { destruct q as [t w]. cbn in *. rewrite Hq, deque_extendleft_rev.
    now rewrite app_nil_r. }
  exists ucs1, rest. split; [now rewrite str_take_drop|].
  split; [reflexivity|]. split; [now rewrite Hres|]. split.
  - rewrite rebuffer_drains, Hbuf, rev_involutive.
    now rewrite string_of_list_ascii_of_string.
  - intros w2 timeout2 esc_delay2 ucs2 ks2 p2 H2.
    apply inkey_resolved_consumed in H2 as (fresh & -> & (n & Hin & Hdec & _)).
    exists fresh, n. cbn [self os] in *. rewrite Hbuf, rev_involutive.
    rewrite string_of_list_ascii_of_string. split; [reflexivity|].
    split; [exact Hin|]. destruct q as [t w]; exact Hdec.
Qed.


(** ** Keyboard: the Escape delay *)

Lemma timeleft_now (d : Z) (p : Proc) :
  0 <= d ->
  _timeleft (now (os p)) (Some d) p = (Returns (Some d), p).
Proof.
  intros Hd. unfold _timeleft.
  destruct (Z.eqb_spec d 0) as [->|Hne]; [reflexivity|].
  unfold mbind_st, time_time, ret. do 3 f_equal. lia.
Qed.




Lemma mbind_any {S A B} (m : M S A) (k : A -> M S B) s r s' :
  mbind_st m k s = (r, s') ->
  (exists a sm, m s = (Returns a, sm) /\ k a sm = (r, s')) \/
  (exists r0, m s = (r0, s')).
Proof.
  unfold mbind_st. destruct (m s) as [[a| e | |] sm]; [eauto| | |];
    eqn_in; right; eauto.
Qed.

Tactic Notation "bind_any" hyp(H) "as" ident(a) ident(q) ident(H1) :=
  apply mbind_any in H as [(a & q & H1 & H) | (a & H1)].













(** ** Keyboard: the loops stay within their budget *)

Lemma mbind_OutOfFuel {S A B} (m : M S A) (k : A -> M S B) s s' :
  mbind_st m k s = (OutOfFuel, s') ->
  m s = (OutOfFuel, s') \/
  exists a sm, m s = (Returns a, sm) /\ k a sm = (OutOfFuel, s').
Proof.
  unfold mbind_st. destruct (m s) as [[a| e | |] sm]; intros E;
    try discriminate.
  - right. eauto.
  - left. inversion E; subst. reflexivity.
Qed.

Tactic Notation "bind_fuel" hyp(H) "as" ident(a) ident(q) ident(H1) :=
  apply mbind_OutOfFuel in H as [H | (a & q & H1 & H)].


















End Properties.

(** * Further properties *)

Section MoreProperties.
Context {imports : Imports}.

Ltac eqn_in' :=
  let Heq := fresh "Heq" in intros Heq; inversion Heq; subst; clear Heq.

Tactic Notation "bind_ret" hyp(H) "as" ident(a) ident(q) ident(H1) :=
  apply mbind_Returns in H as (a & q & H1 & H).

Tactic Notation "bind_all" hyp(H) "as" ident(a) ident(q) ident(H1) :=
  apply mbind_any in H as [(a & q & H1 & H) | (a & H1)].

(** ** Construction, continued *)

(** X1. A terminal styles exactly when styling was asked for (a tty or a
    true [force_styling], and [force_styling] not [None]) and curses was
    already set up or knows the kind. *)
Theorem init_styles_iff (kind : option string) (stream_arg : option Stream)
    (force_styling : option bool) (w : World) :
  does_styling (fst (__init__ kind stream_arg force_styling w))
  = styling_requested stream_arg force_styling w
    && (initialised_setupterm w || terminfo w (requested_kind kind w)).
Proof.
  rewrite init_result.
  destruct (styling_requested stream_arg force_styling w); [|reflexivity].
  unfold init_curses. cbn [andb].
  destruct (initialised_setupterm w || terminfo w (requested_kind kind w))
    eqn:Hs.
  - destruct (setupterm_succeeds _ _ Hs) as (w' & -> & _).
    destruct (_CUR_TERM w'); [destruct (String.eqb _ _)|]; reflexivity.
  - rewrite (setupterm_fails _ _ Hs). reflexivity.
Qed.


(** X3. A terminal that does not style holds no attribute of its own, so
    every name that the class does not define, [KEY_ESCAPE], [_keymap] and
    [keyboard_fd] among them, reads as the null value. *)
Theorem init_plain_has_no_attributes (kind : option string)
    (stream_arg : option Stream) (force_styling : option bool) (w : World)
    (attr : string) :
  let t := fst (__init__ kind stream_arg force_styling w) in
  does_styling t = false ->
  __dict__ t = ∅ /\ attr_value t attr = Ok (PyFmt NullCallableString).
Proof.
  cbn zeta. rewrite init_result.
  destruct (if styling_requested stream_arg force_styling w then _ else _)
    as [[k1 s1] w1].
  cbn. intros ->. split; [reflexivity|].
  unfold attr_value. cbn. now rewrite lookup_empty.
Qed.

Lemma fold_keys_other (codes : list (Z * string)) (d : gmap string pyobj)
    (name : string) :
  name ∉ codes.*2 ->
  fold_left (fun d '(key_code, key_name) => <[key_name := PyInt key_code]> d)
    codes d !! name = d !! name.
Proof.
  revert d. induction codes as [|[c n] codes IH]; intros d Hn; [reflexivity|].
  cbn in Hn. apply not_elem_of_cons in Hn as [Hne Hn]. cbn.
  rewrite IH by exact Hn. now rewrite lookup_insert_ne.
Qed.

Lemma fold_keys_lookup (codes : list (Z * string)) (d : gmap string pyobj)
    (code : Z) (name : string) :
  NoDup codes.*2 -> (code, name) ∈ codes ->
  fold_left (fun d '(key_code, key_name) => <[key_name := PyInt key_code]> d)
    codes d !! name = Some (PyInt code).
Proof.
  revert d. induction codes as [|[c n] codes IH]; intros d Hnd Hin.
  - now apply elem_of_nil in Hin.
  - cbn in Hnd. apply NoDup_cons in Hnd as [Hfresh Hnd].
    apply elem_of_cons in Hin as [[= -> ->] | Hin]; cbn.
    + rewrite fold_keys_other by exact Hfresh. apply lookup_insert_eq.
    + now apply IH.
Qed.

(** X4. A styling terminal carries its key tables: [_keymap] is there, and
    every key name of [get_keyboard_codes] is an attribute holding its
    code (the names being distinct, and none of them [_keymap]). *)
Theorem init_key_attributes (kind : option string)
    (stream_arg : option Stream) (force_styling : option bool) (w : World)
    (code : Z) (name : string) :
  let t := fst (__init__ kind stream_arg force_styling w) in
  does_styling t = true ->
  NoDup get_keyboard_codes.*2 ->
  (code, name) ∈ get_keyboard_codes -> name <> "_keymap" ->
  attr_value t name = Ok (PyInt code) /\
  exists seqs, attr_value t "_keymap" = Ok (PyKeymap seqs).
Proof.
  cbn zeta. rewrite init_result.
  destruct (if styling_requested stream_arg force_styling w then _ else _)
    as [[k1 s1] w1].
  cbn. intros -> Hnd Hin Hne. unfold attr_value, key_attributes. cbn. split.
  - rewrite lookup_insert_ne by congruence.
    now rewrite (fold_keys_lookup _ _ code name).
  - rewrite lookup_insert_eq. eauto.
Qed.


Lemma init_curses_keeps (k : string) (w : World) :
  let w' := snd (init_curses k w) in
  (forall cur, _CUR_TERM w = Some cur -> _CUR_TERM w' = Some cur) /\
  warnings w `prefix_of` warnings w' /\
  (initialised_setupterm w = true -> initialised_setupterm w' = true) /\
  stdin w' = stdin w /\ now w' = now w /\ environ w' = environ w.
Proof.
  unfold init_curses.
  destruct (initialised_setupterm w || terminfo w k) eqn:Hs.
  - destruct (setupterm_succeeds _ _ Hs) as (w' & Hw' & Hc & Hws & Hi).
    rewrite Hw'.
    assert (Hf : stdin w' = stdin w /\ now w' = now w
                 /\ environ w' = environ w).
    { unfold setupterm in Hw'. destruct (initialised_setupterm w);
        [|destruct (terminfo w k)]; inversion Hw'; subst; cbn; auto. }
    destruct Hf as (F1 & F2 & F3).
    destruct (_CUR_TERM w') as [cur|] eqn:Hcur;
      [destruct (String.eqb_spec k cur) as [->|Hne]|]; cbn;
      rewrite ?Hws, ?Hi, ?F1, ?F2, ?F3, ?Hcur;
      (split; [intros c Hc'; congruence|]);
      (split; [try reflexivity; now apply prefix_app_r|]);
      repeat split; auto.
  - rewrite (setupterm_fails _ _ Hs). cbn. repeat split; auto.
    now apply prefix_app_r.
Qed.

Lemma init_keeps (kind : option string) (stream_arg : option Stream)
    (force_styling : option bool) (w : World) :
  let w' := snd (__init__ kind stream_arg force_styling w) in
  (forall cur, _CUR_TERM w = Some cur -> _CUR_TERM w' = Some cur) /\
  warnings w `prefix_of` warnings w' /\
  (initialised_setupterm w = true -> initialised_setupterm w' = true) /\
  stdin w' = stdin w /\ now w' = now w /\ environ w' = environ w.
Proof.
  cbn zeta. rewrite init_result.
  destruct (styling_requested stream_arg force_styling w).
  - pose proof (init_curses_keeps (requested_kind kind w) w) as Hk.
    destruct (init_curses (requested_kind kind w) w) as [[k1 s1] w1].
    exact Hk.
  - cbn. repeat split; auto.
Qed.

(** X5. However many terminals a process constructs, of whatever kinds, the
    kind on record does not change once there is one, no warning is ever
    taken back, and the keyboard input, the clock and the environment are
    left alone. *)
Theorem construct_all_keeps
    (calls : list (option string * option Stream * option bool))
    (w : World) :
  let w' := construct_all calls w in
  (forall cur, _CUR_TERM w = Some cur -> _CUR_TERM w' = Some cur) /\
  warnings w `prefix_of` warnings w' /\
  (initialised_setupterm w = true -> initialised_setupterm w' = true) /\
  stdin w' = stdin w /\ now w' = now w /\ environ w' = environ w.
Proof.
  cbn zeta. revert w.
  induction calls as [|[[kind stream_arg] fs] calls IH]; intros w.
  - cbn. repeat split; auto.
  - cbn [construct_all fold_left].
    destruct (init_keeps kind stream_arg fs w) as (H1 & H2 & H3 & H4 & H5 & H6).
    destruct (IH (snd (__init__ kind stream_arg fs w)))
      as (I1 & I2 & I3 & I4 & I5 & I6).
    unfold construct_all in *.
    split; [|split; [|split; [|split; [|split]]]].
    + intros cur Hc. apply I1, H1, Hc.
    + etrans; eassumption.
    + intros Hi. apply I3, H3, Hi.
    + congruence.
    + congruence.
    + congruence.
Qed.



(** ** Attribute look-up, continued *)

Lemma getattr_cases (attr : string) (p : Proc) :
  getattr attr p = (to_run (attr_value (self p) attr), p) \/
  exists v,
    __dict__ (self p) !! attr = None /\
    getattr attr p
    = (Returns (PyFmt v),
       on_self (with_dict (<[attr := PyFmt v]> (__dict__ (self p)))) p).
Proof.
  unfold getattr, attr_value, mbind_st, get.
  destruct (__dict__ (self p) !! attr) as [v|] eqn:Hd; cbn [ret to_run];
    [now left|].
  unfold __getattr__, mbind_st, get.
  destruct (does_styling (self p)) eqn:Hs; cbn [negb ret to_run]; [|now left].
  unfold lift.
  destruct (resolve_attribute (as_constructed (self p)) attr) as [v|e]
    eqn:Hr; cbn [to_run Py.bind];
    [|now left].
  destruct (in_dir (self p) attr) eqn:Hdir; cbn [negb ret setattr modify];
    [now left|].
  right. exists v. split; reflexivity.
Qed.

(** X6. Reading an attribute a second time gives the same answer and
    changes nothing: what the first reading resolved is served from the
    instance dictionary. *)
Theorem getattr_twice (attr : string) (p : Proc) :
  getattr attr (snd (getattr attr p))
  = (fst (getattr attr p), snd (getattr attr p)).
Proof.
  destruct (getattr_cases attr p) as [E | (v & Hd & E)]; rewrite E;
    cbn [fst snd].
  - exact E.
  - unfold getattr, mbind_st, get. destruct p as [t w]. cbn.
    now rewrite lookup_insert_eq.
Qed.

(** ** Window size, continued *)

(** X8. The size comes from the first descriptor that answers: the
    terminal's own when it does, whatever the environment says, and that
    of the process's standard output when the terminal has no descriptor
    or its descriptor does not answer. *)
Theorem size_from_first_answer (p : Proc) (r c x y : Z) :
  (forall d, _init_descriptor (self p) = Some d ->
             ioctl_winsz (os p) d = Some (r, c, x, y) ->
             height p = Ok r /\ width p = Ok c) /\
  ((forall d, _init_descriptor (self p) = Some d ->
              ioctl_winsz (os p) d = None) ->
   ioctl_winsz (os p) (stdout_fileno (os p)) = Some (r, c, x, y) ->
   height p = Ok r /\ width p = Ok c).
Proof.
  unfold height, width, _height_and_width. split.
  - intros d Hd Hi. rewrite Hd. cbn. unfold _winsize. rewrite Hi. cbn. auto.
  - intros Hown Hout. cbn. unfold _winsize.
    destruct (_init_descriptor (self p)) as [d|].
    + rewrite (Hown d eq_refl), Hout. cbn. auto.
    + rewrite Hout. cbn. auto.
Qed.

Lemma py_int_raises (s : string) (e : exn) :
  py_int s = Raise e -> e = ValueError.
Proof.
  unfold py_int. destruct (match strip _ with [] => _ | _ => _ end);
    [discriminate|]. now intros [= <-].
Qed.

Lemma height_and_width_raises (p : Proc) (e : exn) :
  _height_and_width p = Raise e ->
  e = ValueError /\
  query_candidates (os p)
    [_init_descriptor (self p); Some (stdout_fileno (os p))] = None.
Proof.
  unfold _height_and_width.
  destruct (query_candidates _ _) as [r|] eqn:Q.
  - destruct (query_candidates_returns _ _ _ Q) as [z ->]. discriminate.
  - destruct (py_int (getenv (os p) "LINES" "25")) as [rows|e1] eqn:Hr; cbn.
    + destruct (py_int (getenv (os p) "COLUMNS" "80")) as [cols|e2] eqn:Hc;
        cbn; [discriminate|].
      intros [= <-]. split; [now apply py_int_raises in Hc|reflexivity].
    + intros [= <-]. split; [now apply py_int_raises in Hr|reflexivity].
Qed.

(** X9. [height] and [width] fail together, and only with a ValueError
    after every size query has failed; so [height] fails for a [COLUMNS]
    that is not a number even when [LINES] is fine. *)
Theorem height_width_fail_together (p : Proc) :
  (forall e, height p = Raise e <-> width p = Raise e) /\
  (forall e, height p = Raise e ->
     e = ValueError /\
     query_candidates (os p)
       [_init_descriptor (self p); Some (stdout_fileno (os p))] = None) /\
  (forall rows e,
     query_candidates (os p)
       [_init_descriptor (self p); Some (stdout_fileno (os p))] = None ->
     py_int (getenv (os p) "LINES" "25") = Ok rows ->
     py_int (getenv (os p) "COLUMNS" "80") = Raise e ->
     height p = Raise e).
Proof.
  assert (Hh : forall e, height p = Raise e <-> _height_and_width p = Raise e).
  { intros e. unfold height. destruct (_height_and_width p); cbn;
      split; congruence. }
  assert (Hw : forall e, width p = Raise e <-> _height_and_width p = Raise e).
  { intros e. unfold width. destruct (_height_and_width p); cbn;
      split; congruence. }
  split; [|split].
  - intros e. rewrite Hh, Hw. reflexivity.
  - intros e He. apply Hh in He. now apply height_and_width_raises.
  - intros rows e Q Hr Hc. apply Hh. unfold _height_and_width.
    rewrite Q, Hr, Hc. reflexivity.
Qed.


(** ** Wrapping, continued *)

Lemma linebreak_is_space (c : ascii) :
  is_linebreak c = true -> is_space c = true.
Proof.
  destruct c as [[] [] [] [] [] [] [] []]; vm_compute; congruence.
Qed.

Lemma strip_nonempty_chars (l : list ascii) :
  strip_nonempty (string_of_list_ascii l) = existsb (fun c => negb (is_space c)) l.
Proof. induction l as [|c l IH]; cbn; [reflexivity|]. now rewrite IH. Qed.

Lemma existsb_rev {A} (f : A -> bool) (l : list A) :
  existsb f (rev l) = existsb f l.
Proof.
  induction l as [|x l IH]; cbn; [reflexivity|].
  rewrite existsb_app, IH. cbn. rewrite orb_false_r. apply orb_comm.
Qed.

(** The lines of a text hold a character that is not a space exactly when
    the text, or the line begun before it, does. *)
Lemma splitlines_aux_nonblank (s : string) (cur : list ascii) (cr : bool) :
  existsb strip_nonempty (splitlines_aux s cur cr)
  = existsb (fun c => negb (is_space c)) cur || strip_nonempty s.
Proof.
  revert cur cr. induction s as [|c s IH]; intros cur cr; cbn.
  - destruct cur as [|x cur]; [reflexivity|]. cbn [existsb].
    rewrite strip_nonempty_chars, existsb_rev. cbn. now rewrite !orb_false_r.
  - destruct (cr && (N_of_ascii c =? 10)%N) eqn:Hcr.
    + rewrite IH. apply andb_true_iff in Hcr as [_ Hc].
      assert (Hsp : is_space c = true).
      { apply linebreak_is_space. unfold is_linebreak.
        apply N.eqb_eq in Hc. rewrite Hc. reflexivity. }
      now rewrite Hsp.
    + destruct (is_linebreak c) eqn:Hl.
      * cbn [existsb]. rewrite IH, strip_nonempty_chars, existsb_rev.
        rewrite (linebreak_is_space _ Hl). cbn. reflexivity.
      * rewrite IH. cbn [existsb]. rewrite orb_assoc.
        f_equal. apply orb_comm.
Qed.

Lemma splitlines_nonblank (text : string) :
  existsb strip_nonempty (splitlines text) = strip_nonempty text.
Proof. unfold splitlines. now rewrite splitlines_aux_nonblank. Qed.

Lemma wrap_loop_blank (t : Terminal) (width' : option Z)
    (kwargs : gmap string pyobj) (text : string) (todo lines : list string) :
  existsb strip_nonempty todo = false ->
  wrap_loop t width' kwargs text todo lines
  = Ok (lines ++ map (fun _ => EmptyString) todo)%list.
Proof.
  revert lines. induction todo as [|line todo IH]; intros lines Hb; cbn.
  - now rewrite app_nil_r.
  - cbn in Hb. apply orb_false_iff in Hb as [Hl Hb]. rewrite Hl, IH by exact Hb.
    now rewrite <- app_assoc.
Qed.

Lemma wrap_loop_raises (t : Terminal) (width' : option Z)
    (kwargs : gmap string pyobj) (text : string) (e : exn)
    (todo lines : list string) :
  SequenceTextWrapper_wrap width' t kwargs text = Raise e ->
  existsb strip_nonempty todo = true ->
  wrap_loop t width' kwargs text todo lines = Raise e.
Proof.
  intros HW. revert lines.
  induction todo as [|line todo IH]; intros lines Hb; cbn in *;
    [discriminate|].
  destruct (strip_nonempty line); [now rewrite HW|]. now apply IH.
Qed.

Lemma wrap_passes_assert (text : string) (width_arg : option Z)
    (kwargs : gmap string pyobj) (p : Proc) :
  no_break_long_words kwargs ->
  wrap text width_arg kwargs p
  = Py.bind (wrap_width width_arg p) (fun width' =>
      wrap_loop (self p) width' kwargs text (splitlines text) []).
Proof.
  unfold no_break_long_words, wrap.
  destruct (kwargs !! "break_long_words") as [v|]; [intros ->|]; reflexivity.
Qed.

(** X10. A text without a character that is not a space is not given to the
    wrapper at all: the result is one empty string for each of its lines,
    and the empty list for the empty text. *)
Theorem wrap_blank_text (text : string) (width_arg width' : option Z)
    (kwargs : gmap string pyobj) (p : Proc) :
  no_break_long_words kwargs ->
  wrap_width width_arg p = Ok width' ->
  strip_nonempty text = false ->
  wrap text width_arg kwargs p
  = Ok (map (fun _ => EmptyString) (splitlines text)) /\
  wrap EmptyString width_arg kwargs p = Ok [].
Proof.
  intros Hk Hw Hb. rewrite !wrap_passes_assert by exact Hk. rewrite Hw. cbn.
  split; [|reflexivity].
  now rewrite wrap_loop_blank by (now rewrite splitlines_nonblank).
Qed.

(** X11. As soon as the text holds one character that is not a space, an
    exception of the wrapper is the exception of [wrap]. *)
Theorem wrap_wrapper_failure (text : string) (width_arg width' : option Z)
    (kwargs : gmap string pyobj) (p : Proc) (e : exn) :
  no_break_long_words kwargs ->
  wrap_width width_arg p = Ok width' ->
  strip_nonempty text = true ->
  SequenceTextWrapper_wrap width' (self p) kwargs text = Raise e ->
  wrap text width_arg kwargs p = Raise e.
Proof.
  intros Hk Hw Hb HW. rewrite wrap_passes_assert by exact Hk. rewrite Hw. cbn.
  apply wrap_loop_raises; [exact HW|now rewrite splitlines_nonblank].
Qed.

(** X12. Leaving [width] out is passing the width of the terminal, unless
    that width is 0 or cannot be found out: for 0 the wrapper is handed
    [None] where an explicit 0 is handed on as 0, and a failure to find
    the width is the failure of [wrap], even for the empty text. *)
Theorem wrap_default_width (text : string) (kwargs : gmap string pyobj)
    (p : Proc) :
  no_break_long_words kwargs ->
  (forall w, width p = Ok w -> w <> 0 ->
             wrap text None kwargs p = wrap text (Some w) kwargs p) /\
  (width p = Ok 0 ->
   wrap text None kwargs p
   = wrap_loop (self p) None kwargs text (splitlines text) [] /\
   wrap text (Some 0) kwargs p
   = wrap_loop (self p) (Some 0) kwargs text (splitlines text) []) /\
  (forall e, width p = Raise e -> wrap text None kwargs p = Raise e).
Proof.
  intros Hk. split; [|split].
  - intros w Hw Hne. rewrite !wrap_passes_assert by exact Hk.
    unfold wrap_width. rewrite Hw. cbn.
    destruct (Z.eqb_spec w 0); [contradiction|reflexivity].
  - intros Hw. rewrite !wrap_passes_assert by exact Hk.
    unfold wrap_width. rewrite Hw. cbn. split; reflexivity.
  - intros e Hw. rewrite wrap_passes_assert by exact Hk.
    unfold wrap_width. rewrite Hw. reflexivity.
Qed.


(** ** The keyboard, continued *)

(** X13. [kbhit] only looks: whatever the timeout and the outcome, the
    pending bytes and the end-of-file to come, the decoder, the buffer of
    left-over characters and the output stream are as before; the clock has not gone back, nor on by
    more than the timeout; and [True] is only answered when the keyboard is
    readable: the next byte has arrived, or there is none and end-of-file
    was reached. *)
Theorem kbhit_only_looks (timeout : option Z) (p : Proc) :
  let '(r, p') := kbhit timeout p in
  stdin (os p') = stdin (os p) /\
  stdin_eof (os p') = stdin_eof (os p) /\
  _keyboard_buf (self p') = _keyboard_buf (self p) /\
  _keyboard_decoder (self p') = _keyboard_decoder (self p) /\
  stream (self p') = stream (self p) /\
  now (os p) <= now (os p') /\
  (forall t, timeout = Some t -> now (os p') <= now (os p) + Z.max 0 t) /\
  (r = Returns true ->
   exists a, next_readable (os p) = Some a /\ a <= now (os p')).
Proof.
  destruct (kbhit timeout p) as [r p'] eqn:Hk.
  destruct (kbhit_frame _ _ _ _ Hk) as (Hc & Hin & Hnow & Hb & Hr).
  pose proof (kbhit_eof _ _ _ _ Hk) as Heof.
  destruct Hc as (d & Hd & _). cbn in Hd.
  assert (Hself : self p' = with_dict d (self p)).
  { apply (f_equal self) in Hd. cbn in Hd. rewrite Hd. now destruct p. }
  rewrite Hself. cbn. repeat split; auto.
Qed.

Lemma kbhit_readable (p : Proc) (v : pyobj) (fd t a : Z) :
  attr_value (self p) "keyboard_fd" = Ok v -> is_None v = false ->
  stream_kb (self p) = Some fd -> 0 <= t ->
  next_readable (os p) = Some a -> a <= now (os p) + t ->
  exists dict',
    kbhit (Some t) p
    = (Returns true,
       mkProc (with_dict dict' (self p))
         (with_clock (Z.max (now (os p)) a) (stdin (os p)) (os p))) /\
    forall b, attr_value (with_dict dict' (self p)) b = attr_value (self p) b.
Proof.
  intros Hv Hn Hfd Ht Hs Ha. unfold kbhit, mbind_st.
  destruct (getattr_run "keyboard_fd" p) as (pm & -> & (d & -> & Hd)).
  rewrite Hv. cbn [to_run]. rewrite Hn. unfold get.
  replace (stream_kb (self (on_self (with_dict d) p))) with (Some fd)
    by (rewrite <- Hfd; destruct p; reflexivity).
  assert (Hsel : select_select (Some fd) (Some t) (on_self (with_dict d) p)
                 = (Returns [Some fd],
                    on_os (with_clock (Z.max (now (os p)) a) (stdin (os p)))
                      (on_self (with_dict d) p))).
  { unfold select_select. destruct (Z.ltb_spec t 0); [lia|].
    destruct p as [t0 w]. cbn in *. rewrite Hs.
    destruct (Z.leb_spec a (now w + t)); [reflexivity|lia]. }
  rewrite Hsel. exists d. split; [|exact Hd]. unfold ret.
  rewrite bool_decide_eq_true_2 by reflexivity.
  destruct p as [t0 w]. reflexivity.
Qed.

(** X14. On a terminal with a keyboard, [kbhit(t)] answers whether the
    keyboard is readable within [t]: whether the next byte arrives by then
    or, with no byte left, end-of-file is reached by then.  It comes back
    at once when that is already so, at that time if it is within [t], and
    after [t] otherwise.  [kbhit(0)] never moves the clock. *)
Theorem kbhit_answer (p : Proc) (v : pyobj) (fd t : Z) :
  attr_value (self p) "keyboard_fd" = Ok v -> is_None v = false ->
  stream_kb (self p) = Some fd -> 0 <= t ->
  let '(r, p') := kbhit (Some t) p in
  r = Returns (readable_within t (os p)) /\
  now (os p')
  = (if readable_within t (os p)
     then match next_readable (os p) with
          | Some a => Z.max (now (os p)) a
          | None => now (os p)
          end
     else now (os p) + t) /\
  (t = 0 -> now (os p') = now (os p)).
Proof.
  intros Hv Hn Hfd Ht. unfold readable_within.
  destruct (next_readable (os p)) as [a|] eqn:Hs.
  - destruct (Z.leb_spec a (now (os p) + t)) as [Ha|Ha].
    + destruct (kbhit_readable p v fd t a Hv Hn Hfd Ht Hs Ha)
        as (d & -> & _).
      cbn. repeat split. intros ->. lia.
    + destruct (kbhit_quiet p v fd t Hv Hn Hfd Ht) as (d & -> & _).
      { unfold quiet_for. now rewrite Hs. }
      cbn. repeat split. intros ->. lia.
  - destruct (kbhit_quiet p v fd t Hv Hn Hfd Ht) as (d & -> & _).
    { unfold quiet_for. now rewrite Hs. }
    cbn. repeat split. intros ->. lia.
Qed.


(** ** [inkey], continued: how long a call can take *)









(** ** [inkey], continued: a call with finite waits comes back *)

Lemma mbind_Hangs {S A B} (m : M S A) (k : A -> M S B) s s' :
  mbind_st m k s = (Hangs, s') ->
  m s = (Hangs, s') \/
  exists a sm, m s = (Returns a, sm) /\ k a sm = (Hangs, s').
Proof.
  unfold mbind_st. destruct (m s) as [[a| e | |] sm]; intros E;
    try discriminate.
  - right. eauto.
  - left. inversion E; subst. reflexivity.
Qed.

Tactic Notation "bind_hang" hyp(H) "as" ident(a) ident(q) ident(H1) :=
  apply mbind_Hangs in H as [H | (a & q & H1 & H)].
















(** ** [inkey], continued: calls during which nothing arrives *)

Lemma with_clock_id (w : World) : with_clock (now w) (stdin w) w = w.
Proof. now destruct w. Qed.

Lemma caches_usable (p q : Proc) :
  caches p q -> keyboard_usable (self p) -> keyboard_usable (self q).
Proof.
  intros Hc ((v & Hv & Hn) & (fd & Hfd)).
  destruct (caches_fields _ _ Hc) as (_ & Hkb & _ & _ & Ha).
  split; [exists v|exists fd]; rewrite ?Ha, ?Hkb; auto.
Qed.

Lemma kbhit_nothing (t : Z) (p : Proc) :
  keyboard_usable (self p) -> 0 <= t -> quiet_for t (os p) ->
  exists q,
    kbhit (Some t) p = (Returns false, q) /\
    caches (on_os (with_clock (now (os p) + t) (stdin (os p))) p) q.
Proof.
  intros ((v & Hv & Hn) & (fd & Hfd)) Ht Hq.
  destruct (kbhit_quiet p v fd t Hv Hn Hfd Ht Hq) as (d & Hk & Hd).
  eexists. split; [exact Hk|]. exists d. split; [now destruct p|].
  destruct p as [t0 w]. exact Hd.
Qed.

Lemma recv_available_nothing (fuel : nat) (ucs : string) (p : Proc) :
  keyboard_usable (self p) -> quiet_for 0 (os p) ->
  exists q, recv_available fuel ucs p = (Returns ucs, q) /\ caches p q.
Proof.
  intros Hu Hq. destruct (kbhit_nothing 0 p Hu) as (q & Hk & Hc);
    [lia|exact Hq|].
  exists q. split.
  - destruct fuel; cbn [recv_available]; unfold mbind_st; now rewrite Hk.
  - replace (now (os p) + 0) with (now (os p)) in Hc by lia.
    destruct p as [t0 w]. unfold on_os in Hc. cbn in Hc.
    now rewrite with_clock_id in Hc.
Qed.

Lemma recv_blocking_nothing (fuel : nat) resolve (t : Z) (ucs : string)
    (ks : Keystroke) (p : Proc) :
  keyboard_usable (self p) -> 0 <= t -> quiet_for t (os p) ->
  str_is_empty (ks_text ks) = true ->
  exists q,
    recv_blocking fuel resolve (now (os p)) (Some t) ucs ks p
    = (Returns (ucs, ks), q) /\
    caches (on_os (with_clock (now (os p) + t) (stdin (os p))) p) q.
Proof.
  intros Hu Ht Hq He. destruct (kbhit_nothing t p Hu Ht Hq) as (q & Hk & Hc).
  exists q. split; [|exact Hc].
  destruct fuel; cbn [recv_blocking]; rewrite He; unfold mbind_st;
    rewrite (timeleft_now t p Ht), Hk; reflexivity.
Qed.

Lemma recv_blocking_skip (fuel : nat) resolve (stime : Z)
    (timeout : option Z) (ucs : string) (ks : Keystroke) (p : Proc) :
  str_is_empty (ks_text ks) = false ->
  recv_blocking fuel resolve stime timeout ucs ks p = (Returns (ucs, ks), p).
Proof. intros He. destruct fuel; cbn [recv_blocking]; now rewrite He. Qed.

Lemma inkey_escape_skip resolve (esc_delay : option Z) (ucs : string)
    (ks : Keystroke) (p : Proc) (esc : pyobj) :
  attr_value (self p) "KEY_ESCAPE" = Ok esc ->
  py_is (code_obj ks) esc = false ->
  exists q,
    inkey_escape resolve esc_delay ucs ks p = (Returns (ucs, ks), q) /\
    caches p q.
Proof.
  intros He His. destruct (getattr_run "KEY_ESCAPE" p) as (q & Hg & Hc).
  exists q. split; [|exact Hc].
  unfold inkey_escape, mbind_st. rewrite Hg, He. cbn [to_run]. now rewrite His.
Qed.

Lemma getattr_ok (attr : string) (p : Proc) (v : pyobj) :
  attr_value (self p) attr = Ok v ->
  exists q, getattr attr p = (Returns v, q) /\ caches p q.
Proof.
  intros Hv. destruct (getattr_run attr p) as (q & Hg & Hc).
  exists q. rewrite Hg, Hv. auto.
Qed.

(** The state in which [inkey] resolves the text it finds buffered, when
    no byte is there to be read: the buffer has been emptied into [ucs]. *)
Lemma inkey_start (p : Proc) (mapper codes : pyobj) :
  attr_value (self p) "_keymap" = Ok mapper ->
  attr_value (self p) "_keycodes" = Ok codes ->
  keyboard_usable (self p) -> quiet_for 0 (os p) ->
  exists q,
    caches (on_self (with_keyboard_buf []) p) q /\
    forall (timeout : option Z) (k : _ -> M Proc (string * Keystroke)),
      mbind_st (inkey_receive timeout) k p
      = (let ucs := string_of_list_ascii (rev (_keyboard_buf (self p))) in
         let resolve := fun text => lift (resolve_sequence text mapper codes) in
         ks <~ resolve ucs;;
         n <~ pending_bytes;;
         r <~ recv_blocking n resolve (now (os p)) timeout ucs ks;;
         k (resolve, fst r, snd r)) q.
Proof.
  intros Hm Hc Hu Hq.
  destruct (getattr_ok _ _ _ Hm) as (q1 & Hg1 & C1).
  destruct (caches_fields _ _ C1) as (O1 & _ & B1 & _ & A1).
  destruct (getattr_ok "_keycodes" q1 codes) as (q2 & Hg2 & C2);
    [now rewrite A1|].
  pose proof (caches_trans _ _ _ C1 C2) as C12.
  destruct (caches_fields _ _ C12) as (O2 & _ & B2 & _ & A2).
  set (q3 := on_self (with_keyboard_buf []) q2).
  assert (C3 : caches (on_self (with_keyboard_buf []) p) q3).
  { destruct C12 as (d & -> & Hd). exists d. split; [now destruct p|].
    destruct p as [t0 w]. exact Hd. }
  destruct (recv_available_nothing (length (stdin (os q3)))
              (EmptyString +:+ string_of_list_ascii
                 (rev (_keyboard_buf (self q2)))) q3) as (q4 & Ha & C4).
  { apply (caches_usable _ _ C3). destruct Hu as ((v & Hv & Hn) & Hfd).
    split; [exists v|]; destruct p as [[] w]; auto. }
  { unfold q3. destruct q2 as [t2 w2]. cbn in *. now rewrite O2. }
  exists q4. split; [eapply caches_trans; eassumption|].
  intros timeout k. unfold inkey_receive.
  unfold mbind_st at 1. unfold mbind_st at 1. rewrite Hg1.
  unfold mbind_st at 1. rewrite Hg2.
  unfold mbind_st at 1. unfold time_time.
  unfold mbind_st at 1. unfold get.
  unfold mbind_st at 1. rewrite rebuffer_drains. fold q3.
  unfold mbind_st at 1. unfold pending_bytes at 1.
  unfold mbind_st at 1. rewrite Ha.
  rewrite append_nil_l, B2, O2.
  unfold mbind_st. destruct (lift _ q4) as [[ks| | |] q5]; try reflexivity.
  destruct (pending_bytes q5) as [[n| | |] q6]; try reflexivity.
  destruct (recv_blocking _ _ _ _ _ _ q6) as [[r| | |] q7]; reflexivity.
Qed.


Lemma quiet_weaken (t : Z) (w : World) :
  0 <= t -> quiet_for t w -> quiet_for 0 w.
Proof. unfold quiet_for. destruct (next_readable w) as [a|]; [lia|auto]. Qed.

Lemma attr_value_buf (t : Terminal) (l : list ascii) (b : string) :
  attr_value (with_keyboard_buf l t) b = attr_value t b.
Proof. now destruct t. Qed.

(** The end of [inkey], from the state in which the keystroke has been
    resolved and the escape block does not apply. *)
Lemma inkey_finish (esc_delay : option Z) resolve (ucs : string)
    (ks : Keystroke) (esc : pyobj) (q : Proc) :
  attr_value (self q) "KEY_ESCAPE" = Ok esc ->
  py_is (code_obj ks) esc = false ->
  exists p',
    (r <~ inkey_escape resolve esc_delay ucs ks;;
     let '(ucs, ks) := r in
     modify (on_self (fun t =>
       with_keyboard_buf
         (deque_extendleft (str_drop (String.length (ks_text ks)) ucs)
            (_keyboard_buf t)) t));;;
     ret ks) q = (Returns ks, p') /\
    os p' = os q /\
    _keyboard_buf (self p')
    = deque_extendleft (str_drop (String.length (ks_text ks)) ucs)
        (_keyboard_buf (self q)).
Proof.
  intros He His.
  destruct (inkey_escape_skip resolve esc_delay ucs ks q esc He His)
    as (q' & Hr & C).
  destruct (caches_fields _ _ C) as (O & _ & B & _ & _).
  eexists. split; [|split].
  - unfold mbind_st at 1. rewrite Hr. unfold mbind_st, modify, ret.
    reflexivity.
  - cbn. exact O.
  - cbn. now rewrite B.
Qed.

(** X17. A key that is complete in the buffer of left-over characters is
    returned without any waiting, whatever the timeout, a blocking call
    included, when the keyboard is not readable (no byte has arrived, and
    it is not at end-of-file): the clock and the pending input are as
    before, and what the buffer held after the key is put
    back. *)
Theorem inkey_buffered_key (timeout esc_delay : option Z) (p : Proc)
    (mapper codes esc : pyobj) (ks : Keystroke) :
  let ucs := string_of_list_ascii (rev (_keyboard_buf (self p))) in
  attr_value (self p) "_keymap" = Ok mapper ->
  attr_value (self p) "_keycodes" = Ok codes ->
  attr_value (self p) "KEY_ESCAPE" = Ok esc ->
  keyboard_usable (self p) ->
  quiet_for 0 (os p) ->
  resolve_sequence ucs mapper codes = Ok ks ->
  str_is_empty (ks_text ks) = false ->
  py_is (code_obj ks) esc = false ->
  exists p',
    inkey timeout esc_delay p = (Returns ks, p') /\
    os p' = os p /\
    _keyboard_buf (self p')
    = deque_extendleft (str_drop (String.length (ks_text ks)) ucs) [].
Proof.
  intros ucs Hm Hc He Hu Hq Hres Hne His.
  destruct (inkey_start p mapper codes Hm Hc Hu Hq) as (q & C & Hstart).
  destruct (caches_fields _ _ C) as (O & _ & B & _ & A).
  destruct (inkey_finish esc_delay
              (fun text => lift (resolve_sequence text mapper codes))
              ucs ks esc q) as (p' & Hfin & O' & B');
    [rewrite A; cbn; now rewrite attr_value_buf|exact His|].
  exists p'. split; [|split].
  - unfold inkey, inkey_resolved. unfold mbind_st at 1.
    rewrite Hstart. cbn zeta. fold ucs.
    unfold mbind_st at 1. unfold lift at 1. rewrite Hres. cbn [to_run].
    unfold mbind_st at 1. unfold pending_bytes at 1.
    unfold mbind_st at 1. rewrite recv_blocking_skip by exact Hne.
    cbn [fst snd]. exact Hfin.
  - rewrite O', O. now destruct p.
  - rewrite B', B. now destruct p as [[] w].
Qed.

(** X18. When nothing is buffered that makes a key and the keyboard does
    not become readable within the timeout (no byte comes, and no
    end-of-file), [inkey] returns what the buffered text resolves to
    (the empty keystroke for an empty buffer), after exactly the timeout,
    and has read nothing. *)
Theorem inkey_timeout_expiry (t : Z) (esc_delay : option Z) (p : Proc)
    (mapper codes esc : pyobj) (ks : Keystroke) :
  let ucs := string_of_list_ascii (rev (_keyboard_buf (self p))) in
  attr_value (self p) "_keymap" = Ok mapper ->
  attr_value (self p) "_keycodes" = Ok codes ->
  attr_value (self p) "KEY_ESCAPE" = Ok esc ->
  keyboard_usable (self p) ->
  0 <= t -> quiet_for t (os p) ->
  resolve_sequence ucs mapper codes = Ok ks ->
  str_is_empty (ks_text ks) = true ->
  py_is (code_obj ks) esc = false ->
  exists p',
    inkey (Some t) esc_delay p = (Returns ks, p') /\
    now (os p') = now (os p) + t /\
    stdin (os p') = stdin (os p) /\
    _keyboard_buf (self p')
    = deque_extendleft (str_drop (String.length (ks_text ks)) ucs) [].
Proof.
  intros ucs Hm Hc He Hu Ht Hq Hres Hem His.
  destruct (inkey_start p mapper codes Hm Hc Hu (quiet_weaken _ _ Ht Hq))
    as (q & C & Hstart).
  destruct (caches_fields _ _ C) as (O & _ & B & _ & A).
  assert (Oq : os q = os p) by (rewrite O; now destruct p).
  destruct (recv_blocking_nothing (length (stdin (os q)))
              (fun text => lift (resolve_sequence text mapper codes))
              t ucs ks q) as (q1 & Hb & C1); auto.
  { apply (caches_usable _ _ C). destruct Hu as ((v & Hv & Hn) & Hfd).
    split; [exists v|]; destruct p as [[] w]; auto. }
  { now rewrite Oq. }
  destruct (caches_fields _ _ C1) as (O1 & _ & B1 & _ & A1).
  destruct (inkey_finish esc_delay
              (fun text => lift (resolve_sequence text mapper codes))
              ucs ks esc q1) as (p' & Hfin & O' & B').
  { rewrite A1. destruct q as [tq wq]. cbn. cbn in A. rewrite A.
    now rewrite attr_value_buf. }
  { exact His. }
  exists p'. split; [|split; [|split]].
  - unfold inkey, inkey_resolved. unfold mbind_st at 1.
    rewrite Hstart. cbn zeta. fold ucs.
    unfold mbind_st at 1. unfold lift at 1. rewrite Hres. cbn [to_run].
    unfold mbind_st at 1. unfold pending_bytes at 1.
    unfold mbind_st at 1. rewrite <- Oq, Hb.
    cbn [fst snd]. exact Hfin.
  - rewrite O', O1. destruct q as [tq wq]. cbn in *. now rewrite Oq.
  - rewrite O', O1. destruct q as [tq wq]. cbn in *. now rewrite Oq.
  - rewrite B', B1. destruct q as [tq wq]. cbn in *. rewrite B.
    now destruct p as [[] w].
Qed.


(** X19. On a terminal without a keyboard descriptor [inkey] raises a
    TypeError, for every timeout, from its first look at the keyboard, and
    without any time passing; it neither returns an empty keystroke nor
    waits. *)
Theorem inkey_without_keyboard (timeout esc_delay : option Z) (p : Proc)
    (mapper codes v : pyobj) :
  stream_kb (self p) = None ->
  attr_value (self p) "keyboard_fd" = Ok v -> is_None v = false ->
  attr_value (self p) "_keymap" = Ok mapper ->
  attr_value (self p) "_keycodes" = Ok codes ->
  fst (inkey timeout esc_delay p) = Raises TypeError /\
  os (snd (inkey timeout esc_delay p)) = os p.
Proof.
  intros Hkb Hv Hn Hm Hc.
  destruct (getattr_ok _ _ _ Hm) as (q1 & Hg1 & C1).
  destruct (caches_fields _ _ C1) as (O1 & K1 & B1 & _ & A1).
  destruct (getattr_ok "_keycodes" q1 codes) as (q2 & Hg2 & C2);
    [now rewrite A1|].
  pose proof (caches_trans _ _ _ C1 C2) as C12.
  destruct (caches_fields _ _ C12) as (O2 & K2 & B2 & _ & A2).
  set (q3 := on_self (with_keyboard_buf []) q2).
  destruct (getattr_ok "keyboard_fd" q3 v) as (q4 & Hg4 & C4).
  { unfold q3. cbn. now rewrite attr_value_buf, A2. }
  destruct (caches_fields _ _ C4) as (O4 & K4 & _ & _ & _).
  assert (Hk : kbhit (Some 0) q3 = (Raises TypeError, q4)).
  { unfold kbhit, mbind_st. rewrite Hg4, Hn. unfold get.
    replace (stream_kb (self q4)) with (@None Z); [reflexivity|].
    rewrite K4. unfold q3. cbn. destruct q2 as [[] w2]. cbn in *. congruence. }
  assert (Hr : forall fuel ucs,
            recv_available fuel ucs q3 = (Raises TypeError, q4)).
  { intros fuel ucs. destruct fuel; cbn [recv_available]; unfold mbind_st;
      now rewrite Hk. }
  assert (Hi : inkey timeout esc_delay p = (Raises TypeError, q4)).
  { unfold inkey, inkey_resolved, inkey_receive.
    unfold mbind_st at 1. unfold mbind_st at 1. unfold mbind_st at 1.
    rewrite Hg1.
    unfold mbind_st at 1. rewrite Hg2.
    unfold mbind_st at 1. unfold time_time.
    unfold mbind_st at 1. unfold get.
    unfold mbind_st at 1. rewrite rebuffer_drains. fold q3.
    unfold mbind_st at 1. unfold pending_bytes at 1.
    unfold mbind_st at 1. rewrite Hr. reflexivity. }
  rewrite Hi. split; [reflexivity|]. cbn [snd]. rewrite O4. unfold q3. cbn.
  exact O2.
Qed.

(** ** [inkey] with the keyboard at end-of-file *)

Lemma kbhit_at_eof (t : Z) (p : Proc) :
  keyboard_usable (self p) -> 0 <= t -> at_eof (os p) ->
  exists q, kbhit (Some t) p = (Returns true, q) /\ caches p q.
Proof.
  intros ((v & Hv & Hn) & (fd & Hfd)) Ht (Hs & a & He & Ha).
  destruct (kbhit_readable p v fd t a Hv Hn Hfd Ht) as (d & Hk & Hd).
  { unfold next_readable. now rewrite Hs. }
  { lia. }
  eexists. split; [exact Hk|]. exists d. split; [|exact Hd].
  destruct p as [t0 w]. unfold on_self. cbn in *.
  replace (Z.max (now w) a) with (now w) by lia.
  now rewrite with_clock_id.
Qed.

Lemma decode_next_at_eof (p : Proc) :
  (exists fd, stream_kb (self p) = Some fd) -> at_eof (os p) ->
  _decode_next p = (Returns EmptyString, p).
Proof.
  intros (fd & Hfd) (Hs & a & He & Ha).
  unfold _decode_next, mbind_st, get, os_read, lift, modify, ret.
  rewrite Hfd, Hs, He. cbn.
  destruct p as [[] w]. unfold on_self, on_os. cbn in *.
  replace (Z.max (now w) a) with (now w) by lia.
  rewrite <- Hs. now rewrite with_clock_id.
Qed.

(** The first loop of [inkey], whatever budget it is given. *)
Lemma recv_available_spins (fuel : nat) (ucs : string) (p : Proc) :
  keyboard_usable (self p) -> at_eof (os p) ->
  exists q, recv_available fuel ucs p = (OutOfFuel, q) /\ caches p q.
Proof.
  revert ucs p. induction fuel as [|fuel IH]; intros ucs p Hu He;
    destruct (kbhit_at_eof 0 p Hu) as (q & Hk & Hc); try lia; try exact He;
    cbn [recv_available]; unfold mbind_st at 1; rewrite Hk.
  - exists q. split; [reflexivity|exact Hc].
  - destruct (caches_fields _ _ Hc) as (Hos & _).
    pose proof (caches_usable _ _ Hc Hu) as Hu'.
    assert (He' : at_eof (os q)) by (now rewrite Hos).
    unfold mbind_st.
    rewrite decode_next_at_eof; [|exact (proj2 Hu')|exact He'].
    destruct (IH (ucs +:+ EmptyString) q Hu' He') as (q' & -> & Hc').
    exists q'. split; [reflexivity|]. eapply caches_trans; eassumption.
Qed.

(** X27. With the keyboard at end-of-file [inkey] never returns: the poll
    finds the keyboard readable, the read gives nothing, and the state is
    as it was before the poll, so the first loop goes round for ever,
    whatever the timeout.  Here: whatever budget the loop is given, it
    spends it, and so does the call. *)
Theorem inkey_spins_at_eof (timeout esc_delay : option Z) (p : Proc)
    (mapper codes : pyobj) :
  keyboard_usable (self p) ->
  attr_value (self p) "_keymap" = Ok mapper ->
  attr_value (self p) "_keycodes" = Ok codes ->
  at_eof (os p) ->
  (forall fuel ucs, fst (recv_available fuel ucs p) = OutOfFuel) /\
  fst (inkey timeout esc_delay p) = OutOfFuel.
Proof.
  intros Hu Hm Hc He. split.
  - intros fuel ucs.
    destruct (recv_available_spins fuel ucs p Hu He) as (q & -> & _).
    reflexivity.
  - destruct (getattr_ok _ _ _ Hm) as (q1 & Hg1 & C1).
    destruct (caches_fields _ _ C1) as (O1 & _ & _ & _ & A1).
    destruct (getattr_ok "_keycodes" q1 codes) as (q2 & Hg2 & C2);
      [now rewrite A1|].
    pose proof (caches_trans _ _ _ C1 C2) as C12.
    destruct (caches_fields _ _ C12) as (O2 & _ & _ & _ & _).
    set (q3 := on_self (with_keyboard_buf []) q2).
    assert (Hu3 : keyboard_usable (self q3)).
    { destruct (caches_usable _ _ C12 Hu) as ((v & Hv & Hn) & Hfd).
      unfold q3. split; [exists v|]; destruct q2 as [[] w2]; auto. }
    assert (He3 : at_eof (os q3)) by (unfold q3; cbn; now rewrite O2).
    assert (Hr : forall fuel ucs,
              fst (recv_available fuel ucs q3) = OutOfFuel).
    { intros fuel ucs.
      destruct (recv_available_spins fuel ucs q3 Hu3 He3) as (q & -> & _).
      reflexivity. }
    unfold inkey, inkey_resolved, inkey_receive.
    unfold mbind_st at 1. unfold mbind_st at 1. unfold mbind_st at 1.
    rewrite Hg1.
    unfold mbind_st at 1. rewrite Hg2.
    unfold mbind_st at 1. unfold time_time.
    unfold mbind_st at 1. unfold get.
    unfold mbind_st at 1. rewrite rebuffer_drains. fold q3.
    unfold mbind_st at 1. unfold pending_bytes at 1.
    unfold mbind_st at 1.
    match goal with
    | |- context [recv_available ?n ?u q3] =>
        specialize (Hr n u); destruct (recv_available n u q3) as [r q]
    end.
    cbn in Hr. subst r. reflexivity.
Qed.

(** ** The scopes that write to the stream *)

Lemma write_attr_run (name : string) (p : Proc) (s : string) :
  Py.bind (attr_value (self p) name) as_text = Ok s ->
  exists d,
    write_attr name p
    = (Returns tt,
       on_self (fun t => with_stream
                  (mkStream (fileno (stream t))
                     (written (stream t) +:+ s)) (with_dict d t)) p).
Proof.
  intros Hr. apply bind_Ok in Hr as (v & Hv & Ht).
  unfold write_attr, mbind_st.
  destruct (getattr_run name p) as (p1 & -> & (d1 & -> & Hd1)).
  rewrite Hv. cbn [to_run]. rewrite (stream_write_run _ _ _ Ht).
  exists d1. destruct p as [t w]. reflexivity.
Qed.

Lemma scope_run (enter_name leave_name : string) (p : Proc)
    (body : M Proc unit) (enter : string) :
  Py.bind (attr_value (self p) enter_name) as_text = Ok enter ->
  fst (write_attr enter_name p) = Returns tt /\
  written (stream (self (snd (write_attr enter_name p))))
  = written (stream (self p)) +:+ enter /\
  forall r p2 leave,
    body (snd (write_attr enter_name p)) = (r, p2) ->
    (r = Returns tt \/ exists e, r = Raises e) ->
    Py.bind (attr_value (self p2) leave_name) as_text = Ok leave ->
    fst ((write_attr enter_name;;;
          try_finally body (write_attr leave_name)) p) = r /\
    written (stream (self (snd ((write_attr enter_name;;;
          try_finally body (write_attr leave_name)) p))))
    = written (stream (self p2)) +:+ leave.
Proof.
  intros He. destruct (write_attr_run _ p enter He) as (d & Hw).
  rewrite Hw. cbn [fst snd]. split; [reflexivity|]. split.
  { destruct p as [t w]. reflexivity. }
  intros r p2 leave Hb Hr Hl.
  unfold mbind_st. rewrite Hw. unfold try_finally. rewrite Hb.
  destruct (write_attr_run _ p2 leave Hl) as (d2 & Hx).
  destruct Hr as [-> | [e ->]]; rewrite Hx; cbn [fst snd];
    (split; [reflexivity|destruct p2 as [t2 w2]; reflexivity]).
Qed.

(** X20. [fullscreen] writes the [enter_fullscreen] sequence before the
    body; whether the body returns or raises, [exit_fullscreen] is written
    after it and the body's own outcome is that of the block. *)
Theorem fullscreen_enters_and_leaves (p : Proc) (body : M Proc unit)
    (enter : string) :
  Py.bind (attr_value (self p) "enter_fullscreen") as_text = Ok enter ->
  fst (write_attr "enter_fullscreen" p) = Returns tt /\
  written (stream (self (snd (write_attr "enter_fullscreen" p))))
  = written (stream (self p)) +:+ enter /\
  forall r p2 leave,
    body (snd (write_attr "enter_fullscreen" p)) = (r, p2) ->
    (r = Returns tt \/ exists e, r = Raises e) ->
    Py.bind (attr_value (self p2) "exit_fullscreen") as_text = Ok leave ->
    fst (fullscreen body p) = r /\
    written (stream (self (snd (fullscreen body p))))
    = written (stream (self p2)) +:+ leave.
Proof. apply scope_run. Qed.

(** X21. [hidden_cursor] writes the [hide_cursor] sequence before the
    body; whether the body returns or raises, [normal_cursor] is written
    after it and the body's own outcome is that of the block. *)
Theorem hidden_cursor_hides_and_shows (p : Proc) (body : M Proc unit)
    (hide : string) :
  Py.bind (attr_value (self p) "hide_cursor") as_text = Ok hide ->
  fst (write_attr "hide_cursor" p) = Returns tt /\
  written (stream (self (snd (write_attr "hide_cursor" p))))
  = written (stream (self p)) +:+ hide /\
  forall r p2 normal,
    body (snd (write_attr "hide_cursor" p)) = (r, p2) ->
    (r = Returns tt \/ exists e, r = Raises e) ->
    Py.bind (attr_value (self p2) "normal_cursor") as_text = Ok normal ->
    fst (hidden_cursor body p) = r /\
    written (stream (self (snd (hidden_cursor body p))))
    = written (stream (self p2)) +:+ normal.
Proof. apply scope_run. Qed.

Lemma getattr_unstyled (name : string) (p : Proc) :
  does_styling (self p) = false -> __dict__ (self p) !! name = None ->
  getattr name p = (Returns (PyFmt NullCallableString), p).
Proof.
  intros Hs Hd. unfold getattr, mbind_st, get. rewrite Hd.
  unfold __getattr__, mbind_st, get. now rewrite Hs.
Qed.

Lemma write_null (p : Proc) :
  stream_write (PyFmt NullCallableString) p = (Returns tt, p).
Proof.
  unfold stream_write, modify. cbn [text_of fv_text].
  destruct p as [[? ? ? ? ? ? ? ? [fn wr]] w]. unfold on_self. cbn.
  now rewrite append_nil_r.
Qed.

Lemma write_attr_unstyled (name : string) (p : Proc) :
  unstyled (self p) -> In name scope_names ->
  write_attr name p = (Returns tt, p).
Proof.
  intros [Hs Hd] Hin. unfold write_attr, mbind_st.
  rewrite getattr_unstyled; [apply write_null|exact Hs|].
  rewrite List.Forall_forall in Hd. now apply Hd.
Qed.

Lemma try_finally_nothing {A} (body : M Proc A) (handler : M Proc unit)
    (p : Proc) :
  (forall r p', body p = (r, p') -> handler p' = (Returns tt, p')) ->
  try_finally body handler p = body p.
Proof.
  intros H. unfold try_finally. destruct (body p) as [r p'] eqn:Hb.
  specialize (H r p' eq_refl). destruct r; now rewrite ?H.
Qed.

(** X22. On a terminal that does not style, [location], [fullscreen] and
    [hidden_cursor] are transparent: the block does exactly what its body
    does, to the stream and to everything else, and nothing is written
    around it. *)
Theorem scopes_without_styling (p : Proc) (body : M Proc unit) :
  unstyled (self p) ->
  (forall r p', body p = (r, p') -> unstyled (self p')) ->
  (forall x y, location x y body p = body p) /\
  fullscreen body p = body p /\
  hidden_cursor body p = body p.
Proof.
  intros Hu Hb.
  assert (Hw : forall name, In name scope_names ->
                 write_attr name p = (Returns tt, p)).
  { intros name Hin. now apply write_attr_unstyled. }
  assert (Hf : forall name, In name scope_names ->
                 try_finally body (write_attr name) p = body p).
  { intros name Hin. apply try_finally_nothing. intros r p' Hr.
    apply write_attr_unstyled; [eapply Hb; eassumption|exact Hin]. }
  split; [|split].
  - intros x y. unfold location. unfold mbind_st at 1.
    assert (He : location_enter x y p = (Returns tt, p)).
    { destruct Hu as [Hs Hd]. rewrite List.Forall_forall in Hd.
      assert (Hg : forall name, In name scope_names ->
                getattr name p = (Returns (PyFmt NullCallableString), p)).
      { intros name Hin. apply getattr_unstyled; [exact Hs|].
        now apply Hd. }
      unfold location_enter. unfold mbind_st at 1. rewrite Hg by (cbn; tauto).
      unfold mbind_st at 1. rewrite write_null.
      destruct x as [x'|], y as [y'|]; try reflexivity;
        unfold mbind_st; rewrite Hg by (cbn; tauto); cbn;
        apply write_null. }
    rewrite He. apply (Hf "restore"). cbn; tauto.
  - unfold fullscreen, mbind_st. rewrite Hw by (cbn; tauto).
    apply Hf. cbn; tauto.
  - unfold hidden_cursor, mbind_st. rewrite Hw by (cbn; tauto).
    apply Hf. cbn; tauto.
Qed.


(** ** Terminal modes *)

Lemma mode_scope_run {TtyMode} (f : TtyMode -> TtyMode) (c : Console TtyMode)
    (fd : Z) (m : TtyMode) (body : M (Console TtyMode) unit) r (c2 : Console TtyMode) :
  is_a_tty (self (proc c)) = true ->
  stream_kb (self (proc c)) = Some fd ->
  modes c !! fd = Some m ->
  body (mkConsole (proc c) (<[fd := f m]> (modes c))) = (r, c2) ->
  (r = Returns tt \/ exists e, r = Raises e) ->
  stream_kb (self (proc c2)) = Some fd ->
  is_Some (modes c2 !! fd) ->
  cbreak f body c
  = (r, mkConsole (discard_input (proc c2)) (<[fd := m]> (modes c2))).
Proof.
  intros Htty Hkb Hm Hb Hr Hkb2 [m2 Hm2].
  unfold cbreak. unfold mbind_st at 1. unfold get at 1.
  rewrite Htty, Hkb. cbn [negb].
  unfold mbind_st at 1. unfold tcgetattr at 1. rewrite Hm.
  unfold mbind_st at 1. unfold tty_setcbreak, mbind_st, tcgetattr, tcsetattr.
  rewrite Hm. cbn [proc modes]. rewrite Hm. cbn [proc modes].
  unfold finally_. rewrite Hb.
  unfold restore_mode, mbind_st, get. rewrite Hkb2. unfold tcsetattr.
  rewrite Hm2. destruct Hr as [-> | [e ->]]; reflexivity.
Qed.

(** [raw] is [cbreak] with the other mode function. *)
Lemma raw_as_cbreak {TtyMode} (f : TtyMode -> TtyMode)
    (body : M (Console TtyMode) unit) :
  raw f body = cbreak f body.
Proof. reflexivity. Qed.

(** X23. In a [cbreak] block the body runs with the keyboard in the cbreak
    version of its mode; whether the body returns or raises, the mode from
    before the block is set again, the body's outcome is that of the block,
    and the input that arrived and was not read is dropped. *)
Theorem cbreak_restores_mode {TtyMode} (cbreak_of : TtyMode -> TtyMode)
    (c : Console TtyMode) (fd : Z) (m : TtyMode) (body : M (Console TtyMode) unit) r
    (c2 : Console TtyMode) :
  is_a_tty (self (proc c)) = true ->
  stream_kb (self (proc c)) = Some fd ->
  modes c !! fd = Some m ->
  body (mkConsole (proc c) (<[fd := cbreak_of m]> (modes c))) = (r, c2) ->
  (r = Returns tt \/ exists e, r = Raises e) ->
  stream_kb (self (proc c2)) = Some fd ->
  is_Some (modes c2 !! fd) ->
  cbreak cbreak_of body c
  = (r, mkConsole (discard_input (proc c2)) (<[fd := m]> (modes c2))).
Proof. apply mode_scope_run. Qed.

(** X24. The same for [raw]: the body runs with the keyboard in the raw
    version of its mode, and on either way out the prior mode is set again
    and the unread input dropped. *)
Theorem raw_restores_mode {TtyMode} (raw_of : TtyMode -> TtyMode)
    (c : Console TtyMode) (fd : Z) (m : TtyMode) (body : M (Console TtyMode) unit) r
    (c2 : Console TtyMode) :
  is_a_tty (self (proc c)) = true ->
  stream_kb (self (proc c)) = Some fd ->
  modes c !! fd = Some m ->
  body (mkConsole (proc c) (<[fd := raw_of m]> (modes c))) = (r, c2) ->
  (r = Returns tt \/ exists e, r = Raises e) ->
  stream_kb (self (proc c2)) = Some fd ->
  is_Some (modes c2 !! fd) ->
  raw raw_of body c
  = (r, mkConsole (discard_input (proc c2)) (<[fd := m]> (modes c2))).
Proof. rewrite raw_as_cbreak. apply mode_scope_run. Qed.

(** X25. The assertion of [cbreak] and [raw] looks at the output stream;
    when that is a tty and the keyboard is not, both raise the termios
    error at once, and the body is not run. *)
Theorem mode_scopes_need_a_tty_keyboard {TtyMode}
    (cbreak_of raw_of : TtyMode -> TtyMode) (c : Console TtyMode) (fd : Z)
    (body : M (Console TtyMode) unit) :
  is_a_tty (self (proc c)) = true ->
  stream_kb (self (proc c)) = Some fd ->
  modes c !! fd = None ->
  cbreak cbreak_of body c = (Raises termios_error, c) /\
  raw raw_of body c = (Raises termios_error, c).
Proof.
  intros Htty Hkb Hm.
  rewrite (raw_as_cbreak raw_of).
  split; unfold cbreak; unfold mbind_st at 1; unfold get at 1;
    rewrite Htty, Hkb; cbn [negb]; unfold mbind_st at 1;
    unfold tcgetattr at 1; now rewrite Hm.
Qed.

Lemma discard_input_twice (p : Proc) :
  discard_input (discard_input p) = discard_input p.
Proof.
  destruct p as [t w]. destruct w. unfold discard_input, on_os, with_clock.
  cbn. now rewrite list_filter_filter_l by auto.
Qed.

(** X26. A [raw] block inside a [cbreak] block: the body runs in the raw
    version of the cbreak mode, and on the way out both are undone, back to
    the mode from before the outer block. *)
Theorem nested_modes_unwind {TtyMode} (cbreak_of raw_of : TtyMode -> TtyMode)
    (c : Console TtyMode) (fd : Z) (m : TtyMode) (body : M (Console TtyMode) unit) r
    (c2 : Console TtyMode) :
  is_a_tty (self (proc c)) = true ->
  stream_kb (self (proc c)) = Some fd ->
  modes c !! fd = Some m ->
  body (mkConsole (proc c) (<[fd := raw_of (cbreak_of m)]> (modes c)))
  = (r, c2) ->
  (r = Returns tt \/ exists e, r = Raises e) ->
  stream_kb (self (proc c2)) = Some fd ->
  is_Some (modes c2 !! fd) ->
  cbreak cbreak_of (raw raw_of body) c
  = (r, mkConsole (discard_input (proc c2)) (<[fd := m]> (modes c2))).
Proof.
  intros Htty Hkb Hm Hb Hr Hkb2 Hm2.
  set (c1 := mkConsole (proc c) (<[fd := cbreak_of m]> (modes c))).
  assert (Hin : raw raw_of body c1
                = (r, mkConsole (discard_input (proc c2))
                        (<[fd := cbreak_of m]> (modes c2)))).
  { rewrite (raw_as_cbreak raw_of).
    apply (mode_scope_run raw_of c1 fd (cbreak_of m) body r c2); auto.
    - unfold c1. cbn. apply lookup_insert_eq.
    - unfold c1. cbn. now rewrite insert_insert_eq. }
  rewrite (mode_scope_run cbreak_of c fd m (raw raw_of body) r _
             Htty Hkb Hm Hin Hr).
  - cbn. now rewrite discard_input_twice, insert_insert_eq.
  - cbn. destruct c2 as [[t2 w2] ms2]. exact Hkb2.
  - cbn. rewrite lookup_insert_eq. eauto.
Qed.

End MoreProperties.

(** * The properties at concrete inputs *)

(** C8: with [LINES] set to a word and no tty to ask, [height] raises a
    ValueError. *)
Lemma height_raises_on_malformed_LINES :
  height (Sample.piped_proc {["LINES" := "abc"]}) = Raise ValueError.
Proof. vm_compute. reflexivity. Qed.

(** C8 as amended, in a process without a tty and without [LINES] and
    [COLUMNS]: 25 rows and 80 columns. *)
Lemma height_width_total_witness :
  (exists h w, height (Sample.piped_proc ∅) = Ok h
               /\ width (Sample.piped_proc ∅) = Ok w) /\
  height (Sample.piped_proc ∅) = Ok 25 /\
  width (Sample.piped_proc ∅) = Ok 80.
Proof.
  destruct (height_width_total (Sample.piped_proc ∅) 25 80)
    as (Hex & Hfall & _).
  - vm_compute. reflexivity.
  - vm_compute. reflexivity.
  - split; [exact Hex|]. apply Hfall. intros d _. reflexivity.
Defined.

(** C6 on a terminal without styling. *)
Lemma getattr_without_styling_witness :
  __getattr__ (imports := Sample.sample_imports) "bold" Sample.plain_proc
  = (Returns (PyFmt NullCallableString), Sample.plain_proc) /\
  NullCallableString_call ["x"; "huh?"] = "xhuh?".
Proof.
  destruct (getattr_without_styling (imports := Sample.sample_imports)
              Sample.plain_proc "bold") as (Hg & _ & _).
  - reflexivity.
  - split; [exact Hg|reflexivity].
Defined.

(** C4 with the keyword true, and without it. *)
Lemma wrap_break_long_words_witness :
  wrap (imports := Sample.sample_imports) "hello world" (Some 5)
    {["break_long_words" := PyBool true]} Sample.plain_proc
  = Raise AssertionError /\
  wrap (imports := Sample.sample_imports) "hello world" (Some 5) ∅
    Sample.plain_proc
  = Ok ["hello"; "world"].
Proof.
  split.
  - apply (proj1 (wrap_break_long_words (imports := Sample.sample_imports)
                    "hello world" (Some 5)
                    {["break_long_words" := PyBool true]} Sample.plain_proc)
             (PyBool true)); reflexivity.
  - rewrite (proj2 (wrap_break_long_words (imports := Sample.sample_imports)
                      "hello world" (Some 5) ∅ Sample.plain_proc)).
    + vm_compute. reflexivity.
    + left. reflexivity.
Defined.

(** C3 on a text of two lines: the wrapper's answer for the whole text
    comes once for each line. *)
Lemma wrap_rewraps_whole_text_witness :
  wrap (imports := Sample.sample_imports)
    ("a" +:+ Sample.LF +:+ "b") (Some 80) ∅ Sample.plain_proc
  = Ok ["a b"; "a b"].
Proof.
  rewrite (wrap_rewraps_whole_text (imports := Sample.sample_imports)
             Sample.plain_proc ("a" +:+ Sample.LF +:+ "b") 80 ∅ ["a b"]).
  - vm_compute. reflexivity.
  - reflexivity.
  - vm_compute. reflexivity.
Defined.

(** C2 on a terminal that writes to a string buffer. *)
Lemma kbhit_not_interactive_raises_witness :
  kbhit (imports := Sample.sample_imports) (Some 0) Sample.plain_proc
  = (Raises TypeError, Sample.plain_proc).
Proof.
  exact (kbhit_not_interactive_raises (imports := Sample.sample_imports)
           None Sample.string_io None (Sample.sample_world [] ∅) (Some 0)
           eq_refl).
Defined.

(** C10 at the origin, with a block that fails: the movement to (0, 0) is
    written, and the restore sequence follows what the block wrote. *)
Lemma location_moves_and_restores_witness :
  fst (location (imports := Sample.sample_imports) (Some 0) (Some 0)
         Sample.failing_body Sample.forced_proc)
  = Raises (UserError "boom") /\
  written (stream (self (snd
    (location (imports := Sample.sample_imports) (Some 0) (Some 0)
       Sample.failing_body Sample.forced_proc))))
  = Sample.ESC +:+ "7" +:+ Sample.ESC +:+ "[1;1H" +:+ "hi"
    +:+ Sample.ESC +:+ "8".
Proof.
  destruct (location_moves_and_restores (imports := Sample.sample_imports)
              Sample.forced_proc (Some 0) (Some 0) Sample.failing_body
              (Sample.ESC +:+ "7") (Sample.ESC +:+ "[1;1H"))
    as (_ & _ & Hbody).
  - vm_compute. reflexivity.
  - vm_compute. reflexivity.
  - destruct (Hbody (Raises (UserError "boom"))
                (snd (Sample.failing_body
                        (snd (location_enter
                                (imports := Sample.sample_imports)
                                (Some 0) (Some 0) Sample.forced_proc))))
                (Sample.ESC +:+ "8")) as (Hres & Hout).
    + vm_compute. reflexivity.
    + right. eexists. reflexivity.
    + vm_compute. reflexivity.
    + split; [exact Hres|]. rewrite Hout. vm_compute. reflexivity.
Defined.

(** C1 on two keys typed at once: the first is returned, and popping the
    buffer gives the second. *)
Lemma inkey_carry_over_witness :
  rebuffer 1 EmptyString
    (snd (inkey (imports := Sample.sample_imports) None (Some 350)
            (Sample.styled_proc [(0, "a"%byte); (0, "b"%byte)])))
  = (Returns "b",
     on_self (with_keyboard_buf [])
       (snd (inkey (imports := Sample.sample_imports) None (Some 350)
               (Sample.styled_proc [(0, "a"%byte); (0, "b"%byte)])))).
Proof.
  destruct (inkey_carry_over (imports := Sample.sample_imports)
              None (Some 350)
              (Sample.styled_proc [(0, "a"%byte); (0, "b"%byte)])
              (mkKeystroke "a" None None)
              (snd (inkey (imports := Sample.sample_imports) None (Some 350)
                      (Sample.styled_proc [(0, "a"%byte); (0, "b"%byte)]))))
    as (ucs1 & rest & _ & Hrest & Hres & Hbuf & _).
  - vm_compute. reflexivity.
  - vm_compute in Hres. injection Hres as <-.
    vm_compute in Hrest. subst rest. exact Hbuf.
Defined.


(** C7 on two constructions in one process: the first records its kind,
    the second is of its own kind, is warned about, and leaves the first
    on record. *)
Lemma cur_term_singleton_witness :
  let '(t1, w1) := __init__ (imports := Sample.sample_imports)
                     (Some "xterm") None (Some true)
                     (Sample.sample_world [] ∅) in
  (does_styling t1 = true /\ _kind t1 = Some "xterm" /\
   _CUR_TERM w1 = Some "xterm" /\ warnings w1 = []) /\
  let '(t2, w2) := __init__ (imports := Sample.sample_imports)
                     (Some "vt100") None (Some true) w1 in
  does_styling t2 = true /\ _kind t2 = Some "vt100" /\
  _CUR_TERM w2 = Some "xterm" /\
  warnings w2 = [KindMismatch "vt100" "xterm"].
Proof.
  generalize (cur_term_singleton (imports := Sample.sample_imports)
                (Some "xterm") None (Some true) (Sample.sample_world [] ∅)
                eq_refl eq_refl).
  cbv zeta.
  destruct (__init__ (Some "xterm") None (Some true)
              (Sample.sample_world [] ∅)) as [t1 w1] eqn:H1.
  intros (A1 & A2 & A3 & A4). split; [repeat split; assumption|].
  assert (Hw : w1 = snd (__init__ (imports := Sample.sample_imports)
                           (Some "xterm") None (Some true)
                           (Sample.sample_world [] ∅)))
    by (now rewrite H1).
  generalize (cur_term_singleton (imports := Sample.sample_imports)
                (Some "vt100") None (Some true) w1
                ltac:(rewrite Hw; reflexivity)
                ltac:(rewrite Hw; reflexivity)).
  cbv zeta. rewrite A3.
  destruct (__init__ (Some "vt100") None (Some true) w1) as [t2 w2].
  intros (B1 & B2 & B3 & B4). rewrite Hw in B2, B4.
  repeat split; assumption.
Defined.

(** C7 on two constructions in one process: the second kind is warned
    about and the first stays on record. *)
Example second_kind_is_warned_about :
  let '(_, w1) := __init__ (imports := Sample.sample_imports)
                    (Some "xterm") None (Some true)
                    (Sample.sample_world [] ∅) in
  let '(t2, w2) := __init__ (imports := Sample.sample_imports)
                     (Some "vt100") None (Some true) w1 in
  _CUR_TERM w1 = Some "xterm" /\ warnings w1 = [] /\
  _kind t2 = Some "vt100" /\
  _CUR_TERM w2 = Some "xterm" /\
  warnings w2 = [KindMismatch "vt100" "xterm"].
Proof. vm_compute. repeat split. Qed.

(** C5 on an arrow key whose bytes arrive one after the other: the Escape
    is extended to the arrow key, 2 time units after the first byte. *)
Example arrow_key_is_assembled :
  let r := inkey (imports := Sample.sample_imports) None (Some 350)
             (Sample.styled_proc
                [(0, x1b); (1, "["%byte); (2, "A"%byte)]) in
  fst r = Returns (mkKeystroke (Sample.ESC +:+ "[A") (Some 259)
                     (Some "KEY_UP")) /\
  now (os (snd r)) = 2 /\ _keyboard_buf (self (snd r)) = [].
Proof. vm_compute. repeat split. Qed.

(** ** The further properties on the concrete process *)


(** X3 on a terminal that writes to a string buffer. *)
Lemma init_plain_has_no_attributes_witness :
  attr_value (imports := Sample.sample_imports) (self Sample.plain_proc)
    "KEY_ESCAPE"
  = Ok (PyFmt NullCallableString).
Proof.
  exact (proj2 (init_plain_has_no_attributes
                  (imports := Sample.sample_imports) None
                  (Some Sample.string_io) None (Sample.sample_world [] ∅)
                  "KEY_ESCAPE" eq_refl)).
Defined.

(** X4 for the arrow key of the sample tables. *)
Lemma init_key_attributes_witness :
  attr_value (imports := Sample.sample_imports)
    (self (Sample.styled_proc [])) "KEY_UP"
  = Ok (PyInt 259).
Proof.
  apply (init_key_attributes (imports := Sample.sample_imports)
           (Some "xterm") None (Some true) (Sample.sample_world [] ∅)
           259 "KEY_UP").
  - reflexivity.
  - apply (bool_decide_unpack _). vm_compute. exact I.
  - apply (bool_decide_unpack _). vm_compute. exact I.
  - discriminate.
Defined.

(** X8 on the sample tty: 24 rows and 80 columns, from the terminal's own
    descriptor. *)
Lemma size_from_first_answer_witness :
  height (Sample.styled_proc []) = Ok 24 /\
  width (Sample.styled_proc []) = Ok 80.
Proof.
  apply (proj1 (size_from_first_answer (Sample.styled_proc []) 24 80 0 0) 1);
    vm_compute; reflexivity.
Defined.

(** X9 in a process without a tty: [COLUMNS] is malformed, [LINES] is not
    set, and it is [height] that fails. *)
Lemma height_width_fail_together_witness :
  height (Sample.piped_proc {["COLUMNS" := "abc"]}) = Raise ValueError.
Proof.
  apply (proj2 (proj2 (height_width_fail_together
                         (Sample.piped_proc {["COLUMNS" := "abc"]})))
           25 ValueError); vm_compute; reflexivity.
Defined.

(** X10 on a text of two spaces. *)
Lemma wrap_blank_text_witness :
  wrap (imports := Sample.sample_imports) "  " (Some 5) ∅ Sample.plain_proc
  = Ok [EmptyString].
Proof.
  apply (wrap_blank_text (imports := Sample.sample_imports) "  " (Some 5)
           (Some 5) ∅ Sample.plain_proc).
  - vm_compute. exact I.
  - reflexivity.
  - vm_compute. reflexivity.
Defined.

(** X11 on a window without columns: the sample wrapper refuses the width
    [None] that it is handed. *)
Lemma wrap_wrapper_failure_witness :
  wrap (imports := Sample.sample_imports) "x" None ∅
    MoreSamples.zero_width_proc
  = Raise TypeError.
Proof.
  apply (wrap_wrapper_failure (imports := Sample.sample_imports) "x" None
           None ∅ MoreSamples.zero_width_proc TypeError).
  - vm_compute. exact I.
  - vm_compute. reflexivity.
  - vm_compute. reflexivity.
  - reflexivity.
Defined.

(** X12 on the sample terminal, 80 columns wide. *)
Lemma wrap_default_width_witness :
  wrap (imports := Sample.sample_imports) "hello world" None ∅
    Sample.plain_proc
  = wrap (imports := Sample.sample_imports) "hello world" (Some 80) ∅
      Sample.plain_proc.
Proof.
  apply (proj1 (wrap_default_width (imports := Sample.sample_imports)
                  "hello world" ∅ Sample.plain_proc
                  ltac:(vm_compute; exact I)) 80).
  - vm_compute. reflexivity.
  - discriminate.
Defined.

(** X14 with a key that comes at time 5, asked for with a timeout of 10,
    and with the keyboard at end-of-file. *)
Lemma kbhit_answer_witness :
  (fst (kbhit (imports := Sample.sample_imports) (Some 10)
          (Sample.styled_proc [(5, "a"%byte)]))
   = Returns true /\
   now (os (snd (kbhit (imports := Sample.sample_imports) (Some 10)
                   (Sample.styled_proc [(5, "a"%byte)]))))
   = 5) /\
  fst (kbhit (imports := Sample.sample_imports) (Some 10)
         MoreSamples.eof_proc)
  = Returns true.
Proof.
  split.
  - generalize (kbhit_answer (imports := Sample.sample_imports)
                  (Sample.styled_proc [(5, "a"%byte)])
                  (PyFmt (CapabilityString EmptyString
                            (fun _ => EmptyString)))
                  0 10 ltac:(vm_compute; reflexivity) eq_refl
                  ltac:(vm_compute; reflexivity) ltac:(lia)).
    destruct (kbhit _ _) as [r p']. intros (Hr & Hn & _). cbn [fst snd].
    split; [rewrite Hr|rewrite Hn]; vm_compute; reflexivity.
  - generalize (kbhit_answer (imports := Sample.sample_imports)
                  MoreSamples.eof_proc
                  (PyFmt (CapabilityString EmptyString
                            (fun _ => EmptyString)))
                  0 10 ltac:(vm_compute; reflexivity) eq_refl
                  ltac:(vm_compute; reflexivity) ltac:(lia)).
    destruct (kbhit _ _) as [r p']. intros (Hr & _). cbn [fst].
    rewrite Hr. vm_compute. reflexivity.
Defined.


(** X17 in a blocking call with no input to come: the buffered [a] is
    returned and [b] stays buffered. *)
Lemma inkey_buffered_key_witness :
  exists p',
    inkey (imports := Sample.sample_imports) None (Some 350)
      MoreSamples.buffered_proc
    = (Returns (mkKeystroke "a" None None), p') /\
    os p' = os MoreSamples.buffered_proc /\
    _keyboard_buf (self p') = ["b"%char].
Proof.
  destruct (inkey_buffered_key (imports := Sample.sample_imports)
              None (Some 350) MoreSamples.buffered_proc
              (PyKeymap Sample.sample_sequences)
              (PyKeycodes Sample.sample_codes) (PyInt 361)
              (mkKeystroke "a" None None))
    as (p' & Hk & Hos & Hbuf).
  - vm_compute. reflexivity.
  - vm_compute. reflexivity.
  - vm_compute. reflexivity.
  - split; [eexists; split; [vm_compute; reflexivity|reflexivity]
           |eexists; vm_compute; reflexivity].
  - vm_compute. exact I.
  - vm_compute. reflexivity.
  - reflexivity.
  - reflexivity.
  - exists p'. split; [exact Hk|]. split; [exact Hos|]. rewrite Hbuf.
    vm_compute. reflexivity.
Defined.

(** X18 with a key that comes at time 100 and a timeout of 10. *)
Lemma inkey_timeout_expiry_witness :
  exists p',
    inkey (imports := Sample.sample_imports) (Some 10) (Some 350)
      (Sample.styled_proc [(100, "a"%byte)])
    = (Returns (mkKeystroke EmptyString None None), p') /\
    now (os p') = 10 /\ stdin (os p') = [(100, "a"%byte)].
Proof.
  destruct (inkey_timeout_expiry (imports := Sample.sample_imports)
              10 (Some 350) (Sample.styled_proc [(100, "a"%byte)])
              (PyKeymap Sample.sample_sequences)
              (PyKeycodes Sample.sample_codes) (PyInt 361)
              (mkKeystroke EmptyString None None))
    as (p' & Hk & Hnow & Hin & _).
  - vm_compute. reflexivity.
  - vm_compute. reflexivity.
  - vm_compute. reflexivity.
  - split; [eexists; split; [vm_compute; reflexivity|reflexivity]
           |eexists; vm_compute; reflexivity].
  - lia.
  - vm_compute. reflexivity.
  - vm_compute. reflexivity.
  - reflexivity.
  - reflexivity.
  - exists p'. split; [exact Hk|]. split; [rewrite Hnow|rewrite Hin];
      vm_compute; reflexivity.
Defined.

(** X19 on a styling terminal that writes to a string buffer. *)
Lemma inkey_without_keyboard_witness :
  fst (inkey (imports := Sample.sample_imports) None None Sample.forced_proc)
  = Raises TypeError.
Proof.
  apply (inkey_without_keyboard (imports := Sample.sample_imports) None None
           Sample.forced_proc (PyKeymap Sample.sample_sequences)
           (PyKeycodes Sample.sample_codes)
           (PyFmt (CapabilityString EmptyString (fun _ => EmptyString))));
    vm_compute; reflexivity.
Defined.

(** X27 with the keyboard redirected from an empty file. *)
Lemma inkey_spins_at_eof_witness :
  fst (inkey (imports := Sample.sample_imports) (Some 10) (Some 350)
         MoreSamples.eof_proc)
  = OutOfFuel.
Proof.
  apply (inkey_spins_at_eof (imports := Sample.sample_imports)
           (Some 10) (Some 350) MoreSamples.eof_proc
           (PyKeymap Sample.sample_sequences)
           (PyKeycodes Sample.sample_codes)).
  - split; [eexists; split; [vm_compute; reflexivity|reflexivity]
           |eexists; vm_compute; reflexivity].
  - vm_compute. reflexivity.
  - vm_compute. reflexivity.
  - split; [reflexivity|]. exists 0. split; [reflexivity|].
    vm_compute. discriminate.
Defined.

(** X20 around a block that fails: the alternate screen is left after
    what the block wrote. *)
Lemma fullscreen_enters_and_leaves_witness :
  fst (fullscreen (imports := MoreSamples.screen_imports)
         Sample.failing_body MoreSamples.screen_proc)
  = Raises (UserError "boom") /\
  written (stream (self (snd
    (fullscreen (imports := MoreSamples.screen_imports)
       Sample.failing_body MoreSamples.screen_proc))))
  = Sample.ESC +:+ "[?1049h" +:+ "hi" +:+ Sample.ESC +:+ "[?1049l".
Proof.
  destruct (fullscreen_enters_and_leaves
              (imports := MoreSamples.screen_imports)
              MoreSamples.screen_proc Sample.failing_body
              (Sample.ESC +:+ "[?1049h"))
    as (_ & _ & Hbody).
  - vm_compute. reflexivity.
  - destruct (Hbody (Raises (UserError "boom"))
                (snd (Sample.failing_body
                        (snd (write_attr
                                (imports := MoreSamples.screen_imports)
                                "enter_fullscreen" MoreSamples.screen_proc))))
                (Sample.ESC +:+ "[?1049l")) as (Hres & Hout).
    + vm_compute. reflexivity.
    + right. eexists. reflexivity.
    + vm_compute. reflexivity.
    + split; [exact Hres|]. rewrite Hout. vm_compute. reflexivity.
Defined.

(** X21 around a block that writes two characters. *)
Lemma hidden_cursor_hides_and_shows_witness :
  fst (hidden_cursor (imports := MoreSamples.screen_imports)
         (stream_write (PyStr "hi")) MoreSamples.screen_proc)
  = Returns tt /\
  written (stream (self (snd
    (hidden_cursor (imports := MoreSamples.screen_imports)
       (stream_write (PyStr "hi")) MoreSamples.screen_proc))))
  = Sample.ESC +:+ "[?25l" +:+ "hi" +:+ Sample.ESC +:+ "[?25h".
Proof.
  destruct (hidden_cursor_hides_and_shows
              (imports := MoreSamples.screen_imports)
              MoreSamples.screen_proc (stream_write (PyStr "hi"))
              (Sample.ESC +:+ "[?25l"))
    as (_ & _ & Hbody).
  - vm_compute. reflexivity.
  - destruct (Hbody (Returns tt)
                (snd (stream_write (PyStr "hi")
                        (snd (write_attr
                                (imports := MoreSamples.screen_imports)
                                "hide_cursor" MoreSamples.screen_proc))))
                (Sample.ESC +:+ "[?25h")) as (Hres & Hout).
    + vm_compute. reflexivity.
    + left. reflexivity.
    + vm_compute. reflexivity.
    + split; [exact Hres|]. rewrite Hout. vm_compute. reflexivity.
Defined.

(** X22 on a terminal that writes to a string buffer, around a block that
    fails. *)
Lemma scopes_without_styling_witness :
  location (imports := Sample.sample_imports) (Some 0) (Some 0)
    Sample.failing_body Sample.plain_proc
  = Sample.failing_body Sample.plain_proc /\
  fullscreen (imports := Sample.sample_imports) Sample.failing_body
    Sample.plain_proc
  = Sample.failing_body Sample.plain_proc /\
  hidden_cursor (imports := Sample.sample_imports) Sample.failing_body
    Sample.plain_proc
  = Sample.failing_body Sample.plain_proc.
Proof.
  destruct (scopes_without_styling (imports := Sample.sample_imports)
              Sample.plain_proc Sample.failing_body) as (Hl & Hf & Hh).
  - split; [reflexivity|]. repeat constructor.
  - intros r p' Hb. vm_compute in Hb. injection Hb as _ <-.
    split; [reflexivity|]. repeat constructor.
  - split; [apply Hl|]. split; [exact Hf|exact Hh].
Defined.

(** X23 around a block that fails: the console is cooked again, and the
    key that was typed and not read is gone. *)
Lemma cbreak_restores_mode_witness :
  let r := cbreak MoreSamples.sample_cbreak (in_proc Sample.failing_body)
             MoreSamples.sample_console in
  fst r = Raises (UserError "boom") /\
  modes (snd r) !! 0 = Some MoreSamples.cooked /\
  stdin (os (proc (snd r))) = [(7, "b"%byte)].
Proof.
  cbv zeta.
  rewrite (cbreak_restores_mode MoreSamples.sample_cbreak
             MoreSamples.sample_console 0 MoreSamples.cooked
             (in_proc Sample.failing_body) (Raises (UserError "boom"))
             (snd (in_proc Sample.failing_body
                     (mkConsole (proc MoreSamples.sample_console)
                        (<[0 := MoreSamples.sample_cbreak MoreSamples.cooked]>
                           (modes MoreSamples.sample_console)))))).
  - vm_compute. repeat split.
  - reflexivity.
  - reflexivity.
  - reflexivity.
  - vm_compute. reflexivity.
  - right. eexists. reflexivity.
  - reflexivity.
  - vm_compute. eexists. reflexivity.
Defined.

(** X24 around a block that writes two characters. *)
Lemma raw_restores_mode_witness :
  let r := raw MoreSamples.sample_raw (in_proc (stream_write (PyStr "hi")))
             MoreSamples.sample_console in
  fst r = Returns tt /\
  modes (snd r) !! 0 = Some MoreSamples.cooked /\
  stdin (os (proc (snd r))) = [(7, "b"%byte)].
Proof.
  cbv zeta.
  rewrite (raw_restores_mode MoreSamples.sample_raw
             MoreSamples.sample_console 0 MoreSamples.cooked
             (in_proc (stream_write (PyStr "hi"))) (Returns tt)
             (snd (in_proc (stream_write (PyStr "hi"))
                     (mkConsole (proc MoreSamples.sample_console)
                        (<[0 := MoreSamples.sample_raw MoreSamples.cooked]>
                           (modes MoreSamples.sample_console)))))).
  - vm_compute. repeat split.
  - reflexivity.
  - reflexivity.
  - reflexivity.
  - vm_compute. reflexivity.
  - left. reflexivity.
  - reflexivity.
  - vm_compute. eexists. reflexivity.
Defined.

(** X25 with the keyboard redirected from a file. *)
Lemma mode_scopes_need_a_tty_keyboard_witness :
  cbreak MoreSamples.sample_cbreak (in_proc Sample.failing_body)
    MoreSamples.redirected_console
  = (Raises termios_error, MoreSamples.redirected_console) /\
  raw MoreSamples.sample_raw (in_proc Sample.failing_body)
    MoreSamples.redirected_console
  = (Raises termios_error, MoreSamples.redirected_console).
Proof.
  apply (mode_scopes_need_a_tty_keyboard MoreSamples.sample_cbreak
           MoreSamples.sample_raw MoreSamples.redirected_console 0);
    reflexivity.
Defined.

(** X26 around a block that fails. *)
Lemma nested_modes_unwind_witness :
  let r := cbreak MoreSamples.sample_cbreak
             (raw MoreSamples.sample_raw (in_proc Sample.failing_body))
             MoreSamples.sample_console in
  fst r = Raises (UserError "boom") /\
  modes (snd r) !! 0 = Some MoreSamples.cooked.
Proof.
  cbv zeta.
  rewrite (nested_modes_unwind MoreSamples.sample_cbreak
             MoreSamples.sample_raw
             MoreSamples.sample_console 0 MoreSamples.cooked
             (in_proc Sample.failing_body) (Raises (UserError "boom"))
             (snd (in_proc Sample.failing_body
                     (mkConsole (proc MoreSamples.sample_console)
                        (<[0 := MoreSamples.sample_raw
                                  (MoreSamples.sample_cbreak
                                     MoreSamples.cooked)]>
                           (modes MoreSamples.sample_console)))))).
  - vm_compute. repeat split.
  - reflexivity.
  - reflexivity.
  - reflexivity.
  - vm_compute. reflexivity.
  - right. eexists. reflexivity.
  - reflexivity.
  - vm_compute. eexists. reflexivity.
Defined.
